(** * Vertex AI custom training job controller (prefect_gcp/aiplatform.py)

    A shallow embedding of [VertexAICustomTrainingJob]: its display-name
    generator, job-spec builder, submission, watch loop, [run], [kill] and
    [preview], followed by the properties of the specification that concern
    them.

    Conventions.
    - Durations and clock readings are integers counted in microseconds (the
      resolution of [datetime.timedelta]); rounding of Python floats is not
      modelled.
    - The Python process and the remote service are an explicit environment
      ([Env]: the answers of [uuid4], [time.time] and of the job service
      client) and an explicit state ([State]: how many answers were consumed,
      and the trace of observable events).
    - Exceptions are values of [exn]; a computation returns, raises, or runs
      out of fuel (the watch loop has no bound of its own). *)

From Stdlib Require Import String Ascii List ZArith Bool Lia DecimalString.
Import ListNotations.

Local Open Scope string_scope.

(** ** Python string operations used by the module *)

Module PyStr.

(** [s.split(sep)] for a one-character separator. *)
Fixpoint split (sep : ascii) (s : string) : list string :=
  match s with
  | EmptyString => [EmptyString]
  | String c s' =>
      if Ascii.eqb c sep then EmptyString :: split sep s'
      else match split sep s' with
           | h :: t => String c h :: t
           | [] => [String c EmptyString]
           end
  end.

(** [sep.join(l)]. *)
Fixpoint join (sep : string) (l : list string) : string :=
  match l with
  | [] => EmptyString
  | x :: rest =>
      match rest with
      | [] => x
      | _ :: _ => x ++ sep ++ join sep rest
      end
  end.

(** [needle in hay]. *)
Fixpoint contains (needle hay : string) : bool :=
  String.prefix needle hay ||
  match hay with
  | EmptyString => false
  | String _ hay' => contains needle hay'
  end.

Definition lower_ascii (c : ascii) : ascii :=
  let n := nat_of_ascii c in
  if (Nat.leb 65 n && Nat.leb n 90)%bool then ascii_of_nat (n + 32) else c.

(** [s.lower()] on ASCII text. *)
Fixpoint lower (s : string) : string :=
  match s with
  | EmptyString => EmptyString
  | String c s' => String (lower_ascii c) (lower s')
  end.

(** [s.replace(old, new)] for a non-empty [old]; [skip] counts the
    characters of a match that are still to be dropped. *)
Fixpoint replace_from (old new : string) (skip : nat) (s : string) : string :=
  match s with
  | EmptyString => EmptyString
  | String c s' =>
      match skip with
      | S k => replace_from old new k s'
      | O =>
          if String.prefix old s
          then new ++ replace_from old new (String.length old - 1) s'
          else String c (replace_from old new 0 s')
      end
  end.

Definition replace (old new s : string) : string := replace_from old new 0 s.

(** Truthiness of a [str]. *)
Definition truthy (s : string) : bool :=
  match s with
  | EmptyString => false
  | String _ _ => true
  end.

Definition dquote : string := String (ascii_of_nat 34) EmptyString.

End PyStr.

(** ** Python dictionaries with string keys and values

    Insertion-ordered; a well-formed dictionary has no repeated key. *)

Module PyDict.

Definition dict := list (string * string).

Fixpoint get (d : dict) (k : string) : option string :=
  match d with
  | [] => None
  | (k', v) :: d' => if String.eqb k' k then Some v else get d' k
  end.

(** [d[k] = v]: an existing key keeps its position, a new key goes last. *)
Fixpoint set (d : dict) (k v : string) : dict :=
  match d with
  | [] => [(k, v)]
  | (k', v') :: d' =>
      if String.eqb k' k then (k', v) :: d' else (k', v') :: set d' k v
  end.

(** [{**a, **b}]. *)
Definition merge (a b : dict) : dict :=
  fold_left (fun d kv => set d (fst kv) (snd kv)) b a.

Definition keys (d : dict) : list string := map fst d.

Definition wf (d : dict) : Prop := NoDup (keys d).

End PyDict.

(** ** Data model *)

(** [google.cloud.aiplatform_v1.types.job_state.JobState]. *)
Inductive JobState :=
| JOB_STATE_UNSPECIFIED
| JOB_STATE_QUEUED
| JOB_STATE_PENDING
| JOB_STATE_RUNNING
| JOB_STATE_SUCCEEDED
| JOB_STATE_FAILED
| JOB_STATE_CANCELLING
| JOB_STATE_CANCELLED
| JOB_STATE_PAUSED
| JOB_STATE_EXPIRED
| JOB_STATE_UPDATING
| JOB_STATE_PARTIALLY_SUCCEEDED.

Module JobStateOps.

Definition value (s : JobState) : Z :=
  match s with
  | JOB_STATE_UNSPECIFIED => 0
  | JOB_STATE_QUEUED => 1
  | JOB_STATE_PENDING => 2
  | JOB_STATE_RUNNING => 3
  | JOB_STATE_SUCCEEDED => 4
  | JOB_STATE_FAILED => 5
  | JOB_STATE_CANCELLING => 6
  | JOB_STATE_CANCELLED => 7
  | JOB_STATE_PAUSED => 8
  | JOB_STATE_EXPIRED => 9
  | JOB_STATE_UPDATING => 10
  | JOB_STATE_PARTIALLY_SUCCEEDED => 11
  end%Z.

(** [state.name]. *)
Definition name (s : JobState) : string :=
  match s with
  | JOB_STATE_UNSPECIFIED => "JOB_STATE_UNSPECIFIED"
  | JOB_STATE_QUEUED => "JOB_STATE_QUEUED"
  | JOB_STATE_PENDING => "JOB_STATE_PENDING"
  | JOB_STATE_RUNNING => "JOB_STATE_RUNNING"
  | JOB_STATE_SUCCEEDED => "JOB_STATE_SUCCEEDED"
  | JOB_STATE_FAILED => "JOB_STATE_FAILED"
  | JOB_STATE_CANCELLING => "JOB_STATE_CANCELLING"
  | JOB_STATE_CANCELLED => "JOB_STATE_CANCELLED"
  | JOB_STATE_PAUSED => "JOB_STATE_PAUSED"
  | JOB_STATE_EXPIRED => "JOB_STATE_EXPIRED"
  | JOB_STATE_UPDATING => "JOB_STATE_UPDATING"
  | JOB_STATE_PARTIALLY_SUCCEEDED => "JOB_STATE_PARTIALLY_SUCCEEDED"
  end.

(** [a == b]. *)
Definition eqb (a b : JobState) : bool := Z.eqb (value a) (value b).

(** [s in states]. *)
Definition mem (s : JobState) (states : list JobState) : bool :=
  existsb (eqb s) states.

End JobStateOps.

Record EnvVar := { ev_name : string; ev_value : string }.

Record ContainerSpec := {
  image_uri : string;
  cs_command : option (list string);
  cs_args : list string;
  cs_env : list EnvVar
}.

Record MachineSpec := {
  ms_machine_type : string;
  ms_accelerator_type : option string;
  ms_accelerator_count : option Z
}.

Record DiskSpec := {
  ds_boot_disk_type : string;
  ds_boot_disk_size_gb : Z
}.

Record WorkerPoolSpec := {
  container_spec : ContainerSpec;
  machine_spec : MachineSpec;
  replica_count : Z;
  disk_spec : DiskSpec
}.

(** [timeout] holds what [Duration().FromTimedelta] evaluated to. *)
Record Scheduling := { sched_timeout : option Z }.

Record CustomJobSpec := {
  worker_pool_specs : list WorkerPoolSpec;
  js_service_account : string;
  scheduling : Scheduling;
  js_network : option string;
  js_reserved_ip_ranges : option (list string)
}.

(** A [CustomJob] message: the request built locally carries a display name
    and a spec; the answers of the service also carry the resource name, the
    state and [error.message]. *)
Record CustomJob := {
  cj_name : string;
  display_name : string;
  job_spec : option CustomJobSpec;
  state : JobState;
  error_message : string
}.

(** [CustomJob(display_name=..., job_spec=...)]. *)
Definition new_CustomJob (dn : string) (spec : CustomJobSpec) : CustomJob :=
  {| cj_name := EmptyString;
     display_name := dn;
     job_spec := Some spec;
     state := JOB_STATE_UNSPECIFIED;
     error_message := EmptyString |}.

(** The two attributes of [GcpCredentials] that the module reads. *)
Record GcpCredentials := {
  _service_account_email : option string;
  project : option string
}.

(** The block: the fields declared by [VertexAICustomTrainingJob], and [name]
    and [command] inherited from [Infrastructure]. *)
Record VertexAICustomTrainingJob := {
  name : option string;
  command : option (list string);
  gcp_credentials : GcpCredentials;
  region : string;
  image : string;
  env : PyDict.dict;
  machine_type : string;
  accelerator_type : option string;
  accelerator_count : option Z;
  boot_disk_type : string;
  boot_disk_size_gb : Z;
  maximum_run_time : Z;
  network : option string;
  reserved_ip_ranges : option (list string);
  service_account : option string;
  job_watch_poll_interval : Z
}.

(** [VertexAICustomTrainingJobResult]. *)
Record VertexAICustomTrainingJobResult := {
  identifier : string;
  status_code : Z
}.

Inductive TaskStatus := AnyioTaskStatus.

(** ** Exceptions *)

Inductive exn :=
| ValueError (msg : string)
| RuntimeError (msg : string)
| TypeError (msg : string)
| UnboundLocalError (msg : string)
| InfrastructureNotFound (msg : string) (cause : exn)
| ServiceError (text : string).

(** [str(exc)]. [ServiceError text] stands for any exception raised by the
    client library, [text] being its rendering. *)
Definition exn_str (e : exn) : string :=
  match e with
  | ValueError m | RuntimeError m | TypeError m | UnboundLocalError m => m
  | InfrastructureNotFound m _ => m
  | ServiceError t => t
  end.

(** ** What the module takes from outside the repository *)

Class Externals := {
  (** [repr] of a [str] (the [!r] conversion of f-strings). *)
  repr : string -> string;
  (** [str] of a float number of seconds, here given in microseconds. *)
  str_seconds : Z -> string;
  (** [str(custom_job)], the proto-plus rendering. *)
  str_CustomJob : CustomJob -> string;
  (** the value of [Duration().FromTimedelta(td=...)]. *)
  FromTimedelta : Z -> option Z;
  (** [Infrastructure._base_environment()]. *)
  _base_environment : PyDict.dict
}.

(** ** Effects *)

Inductive level := DEBUG | INFO.

Inductive event :=
| Log (lvl : level) (msg : string)
| ClientOpened (api_endpoint : string)
| ClientClosed
| CreateCustomJob (parent : string) (custom_job : CustomJob)
| GetCustomJob (job : string)
| CancelCustomJob (job : string)
| TaskStarted (value : string)
| Sleep (secs : Z).

(** The calls that reach the remote service. *)
Definition is_remote_call (e : event) : bool :=
  match e with
  | CreateCustomJob _ _ | GetCustomJob _ | CancelCustomJob _ => true
  | _ => false
  end.

Definition is_submission (e : event) : bool :=
  match e with
  | CreateCustomJob _ _ => true
  | _ => false
  end.

Definition is_log (l : level) (e : event) : bool :=
  match e, l with
  | Log INFO _, INFO | Log DEBUG _, DEBUG => true
  | _, _ => false
  end.

Record Env := {
  (** the [n]-th value of [uuid4().hex] *)
  uuid4_hex : nat -> string;
  (** the [n]-th reading of [time.time()] *)
  time_time : nat -> Z;
  (** [gcp_credentials.get_job_service_client(client_options)] *)
  get_job_service_client : string -> option exn;
  (** [client.create_custom_job(parent, custom_job)] *)
  create_custom_job : string -> CustomJob -> exn + CustomJob;
  (** the [n]-th call of [client.get_custom_job(name)] *)
  get_custom_job : nat -> string -> exn + CustomJob;
  (** [client.cancel_custom_job(request)] *)
  cancel_custom_job : string -> option exn
}.

Record State := {
  uuid_calls : nat;
  time_calls : nat;
  get_calls : nat;
  trace : list event
}.

Definition initial_state : State :=
  {| uuid_calls := 0; time_calls := 0; get_calls := 0; trace := [] |}.

Inductive outcome (A : Type) :=
| Ret (a : A)
| Raise (e : exn)
| OutOfFuel.

Arguments Ret {A} a.
Arguments Raise {A} e.
Arguments OutOfFuel {A}.

Definition M (A : Type) : Type := Env -> State -> outcome A * State.

Definition ret {A} (a : A) : M A := fun _ st => (Ret a, st).

Definition raise {A} (e : exn) : M A := fun _ st => (Raise e, st).

Definition out_of_fuel {A} : M A := fun _ st => (OutOfFuel, st).

Definition bind {A B} (m : M A) (k : A -> M B) : M B :=
  fun w st =>
    match m w st with
    | (Ret a, st') => k a w st'
    | (Raise e, st') => (Raise e, st')
    | (OutOfFuel, st') => (OutOfFuel, st')
    end.

Declare Scope py_scope.
Delimit Scope py_scope with py.

Notation "x <- c1 ;; c2" := (bind c1 (fun x => c2))
  (at level 61, c1 at next level, right associativity) : py_scope.
Notation "c1 ;; c2" := (bind c1 (fun _ => c2))
  (at level 61, right associativity) : py_scope.

Local Open Scope py_scope.

(** [try: m except Exception as exc: h exc]. *)
Definition try_except {A} (m : M A) (h : exn -> M A) : M A :=
  fun w st =>
    match m w st with
    | (Raise e, st') => h e w st'
    | r => r
    end.

Definition lift {A} (o : outcome A) : M A := fun _ st => (o, st).

Definition emit (e : event) : M unit :=
  fun _ st =>
    (Ret tt,
     {| uuid_calls := uuid_calls st;
        time_calls := time_calls st;
        get_calls := get_calls st;
        trace := trace st ++ [e] |}).

Definition logger_info (msg : string) : M unit := emit (Log INFO msg).

Definition logger_debug (msg : string) : M unit := emit (Log DEBUG msg).

(** [uuid4().hex]. *)
Definition uuid4 : M string :=
  fun w st =>
    (Ret (uuid4_hex w (uuid_calls st)),
     {| uuid_calls := S (uuid_calls st);
        time_calls := time_calls st;
        get_calls := get_calls st;
        trace := trace st |}).

(** [time.time()]. *)
Definition time : M Z :=
  fun w st =>
    (Ret (time_time w (time_calls st)),
     {| uuid_calls := uuid_calls st;
        time_calls := S (time_calls st);
        get_calls := get_calls st;
        trace := trace st |}).

(** [time.sleep(secs)]. *)
Definition sleep (secs : Z) : M unit :=
  if (secs <? 0)%Z
  then raise (ValueError "sleep length must be non-negative")
  else emit (Sleep secs).

(** [job_service_client.create_custom_job(parent=..., custom_job=...)]. *)
Definition client_create_custom_job (parent : string) (cj : CustomJob)
  : M CustomJob :=
  emit (CreateCustomJob parent cj) ;;
  fun w st =>
    match create_custom_job w parent cj with
    | inl e => (Raise e, st)
    | inr r => (Ret r, st)
    end.

(** [job_service_client.get_custom_job(name=...)]. *)
Definition client_get_custom_job (job : string) : M CustomJob :=
  emit (GetCustomJob job) ;;
  fun w st =>
    let st' := {| uuid_calls := uuid_calls st;
                  time_calls := time_calls st;
                  get_calls := S (get_calls st);
                  trace := trace st |} in
    match get_custom_job w (get_calls st) job with
    | inl e => (Raise e, st')
    | inr r => (Ret r, st')
    end.

(** [job_service_client.cancel_custom_job(request=...)]. *)
Definition client_cancel_custom_job (job : string) : M unit :=
  emit (CancelCustomJob job) ;;
  fun w st =>
    match cancel_custom_job w job with
    | Some e => (Raise e, st)
    | None => (Ret tt, st)
    end.

(** [with self.gcp_credentials.get_job_service_client(...) as client: body]:
    the client is closed on every way out of [body], by return or by
    exception. A body that ran out of fuel has not left the block: the client
    is still open. *)
Definition with_client {A} (api_endpoint : string) (body : M A) : M A :=
  fun w st =>
    match get_job_service_client w api_endpoint with
    | Some e => (Raise e, st)
    | None =>
        match (emit (ClientOpened api_endpoint) ;; body) w st with
        | (OutOfFuel, st') => (OutOfFuel, st')
        | (r, st') => (r, snd (emit ClientClosed w st'))
        end
    end.

(** ** The block's methods *)

Section Block.

Context `{Externals}.

(** [f"{x}"] for an [Optional[str]]. *)
Definition str_optional (o : option string) : string :=
  match o with
  | Some s => s
  | None => "None"
  end.

(** [a or b] on [Optional[str]] values. *)
Definition py_or (a b : option string) : option string :=
  match a with
  | Some s => if PyStr.truthy s then a else b
  | None => b
  end.

(** Property [_log_prefix]. *)
Definition _log_prefix (self : VertexAICustomTrainingJob) : string :=
  match name self with
  | Some n => "VertexAICustomTrainingJob " ++ repr n
  | None => "VertexAICustomTrainingJob"
  end.

(** Property [job_name]: evaluated anew, with a fresh suffix, at every
    access. *)
Definition job_name (self : VertexAICustomTrainingJob) : M string :=
  match nth_error (PyStr.split "/" (image self)) 2 with
  | None =>
      raise (ValueError
               ("The provided image must be from either Google Container Registry "
                ++ "or Google Artifact Registry"))
  | Some repo_name =>
      unique_suffix <- uuid4 ;;
      ret (repo_name ++ "-" ++ unique_suffix)
  end.

Definition env_list_of (d : PyDict.dict) : list EnvVar :=
  map (fun kv => {| ev_name := fst kv; ev_value := snd kv |}) d.

(** [_build_job_spec]. *)
Definition _build_job_spec (self : VertexAICustomTrainingJob)
  : outcome CustomJobSpec :=
  let env_list :=
    env_list_of (PyDict.merge _base_environment (env self)) in
  let container_spec :=
    {| image_uri := image self;
       cs_command := command self;
       cs_args := [];
       cs_env := env_list |} in
  let machine_spec :=
    {| ms_machine_type := machine_type self;
       ms_accelerator_type := accelerator_type self;
       ms_accelerator_count := accelerator_count self |} in
  let worker_pool_spec :=
    {| container_spec := container_spec;
       machine_spec := machine_spec;
       replica_count := 1;
       disk_spec :=
         {| ds_boot_disk_type := boot_disk_type self;
            ds_boot_disk_size_gb := boot_disk_size_gb self |} |} in
  match py_or (service_account self)
              (_service_account_email (gcp_credentials self)) with
  | None =>
      Raise (ValueError
               ("A service account is required for the Vertex job. "
                ++ "A service account could not be detected in the attached credentials; "
                ++ "please set a service account explicitly, e.g. "
                ++ "`VertexAICustomTrainingJob(service_acount="
                ++ PyStr.dquote ++ "..." ++ PyStr.dquote ++ ")`"))
  | Some service_account =>
      let timeout := FromTimedelta (maximum_run_time self) in
      let scheduling := {| sched_timeout := timeout |} in
      Ret {| worker_pool_specs := [worker_pool_spec];
             js_service_account := service_account;
             scheduling := scheduling;
             js_network := network self;
             js_reserved_ip_ranges := reserved_ip_ranges self |}
  end.

(** [preview]. *)
Definition preview (self : VertexAICustomTrainingJob) : M string :=
  job_spec <- lift (_build_job_spec self) ;;
  display_name <- job_name self ;;
  let custom_job := new_CustomJob display_name job_spec in
  ret (str_CustomJob custom_job).

(** [' '.join(self.command)]; [command] may be [None]. *)
Definition join_command (self : VertexAICustomTrainingJob) : M string :=
  match command self with
  | Some c => ret (PyStr.join " " c)
  | None => raise (TypeError "can only join an iterable")
  end.

(** [_create_and_begin_job]. *)
Definition _create_and_begin_job (self : VertexAICustomTrainingJob)
    (job_spec : CustomJobSpec) : M CustomJob :=
  display_name <- job_name self ;;
  let custom_job := new_CustomJob display_name job_spec in
  shown_name <- job_name self ;;
  shown_command <- join_command self ;;
  logger_info
    (_log_prefix self ++ ": Job " ++ repr shown_name ++ " starting to run "
     ++ "the command " ++ repr shown_command ++ " in region "
     ++ repr (region self) ++ " using image " ++ repr (image self)) ;;
  let project := project (gcp_credentials self) in
  let resource_name :=
    "projects/" ++ str_optional project ++ "/locations/" ++ region self in
  custom_job_run <- client_create_custom_job resource_name custom_job ;;
  shown_name <- job_name self ;;
  logger_info
    (_log_prefix self ++ ": Job " ++ repr shown_name
     ++ " has successfully started; "
     ++ "the full job name is " ++ repr (cj_name custom_job_run)) ;;
  ret custom_job_run.

(** The label of a state in the transition message. *)
Definition state_label (s : JobState) : string :=
  PyStr.replace "state" "state is now:"
    (PyStr.lower (PyStr.replace "_" " " (JobStateOps.name s))).

(** [timeout is not None and elapsed_time > timeout]. *)
Definition timed_out (timeout : option Z) (elapsed_time : Z) : bool :=
  match timeout with
  | Some t => (t <? elapsed_time)%Z
  | None => false
  end.

Definition timeout_error (elapsed_time : Z) : exn :=
  RuntimeError
    ("Timed out after " ++ str_seconds elapsed_time
     ++ "s while watching job for states " ++ "{until_states!r}").

(** The [while] loop of [_watch_job_run]; [job_run] is unbound until the
    first poll. *)
Fixpoint watch_loop (fuel : nat) (self : VertexAICustomTrainingJob)
    (full_job_name : string) (until_states : list JobState)
    (timeout : option Z) (t0 : Z) (state0 last_state : JobState)
    (job_run : option CustomJob) {struct fuel} : M CustomJob :=
  if JobStateOps.mem state0 until_states then
    match job_run with
    | Some r => ret r
    | None =>
        raise (UnboundLocalError
                 "local variable 'job_run' referenced before assignment")
    end
  else
    match fuel with
    | O => out_of_fuel
    | S fuel' =>
        job_run <- client_get_custom_job full_job_name ;;
        let state1 := state job_run in
        last_state <-
          (if negb (JobStateOps.eqb state1 last_state) then
             let label := state_label state1 in
             shown_name <- job_name self ;;
             logger_info
               (_log_prefix self ++ ": " ++ shown_name ++ " has new " ++ label) ;;
             ret state1
           else
             logger_debug (_log_prefix self ++ ": Job not found.") ;;
             ret last_state) ;;
        now <- time ;;
        let elapsed_time := (now - t0)%Z in
        if timed_out timeout elapsed_time then
          raise (timeout_error elapsed_time)
        else
          sleep (job_watch_poll_interval self) ;;
          watch_loop fuel' self full_job_name until_states timeout t0
                     state1 last_state (Some job_run)
    end.

(** [_watch_job_run]. *)
Definition _watch_job_run (fuel : nat) (self : VertexAICustomTrainingJob)
    (full_job_name : string) (current_state : JobState)
    (until_states : list JobState) (timeout : option Z) : M CustomJob :=
  t0 <- time ;;
  watch_loop fuel self full_job_name until_states timeout t0
             JOB_STATE_UNSPECIFIED current_state None.

Definition terminal_states : list JobState :=
  [JOB_STATE_SUCCEEDED; JOB_STATE_FAILED; JOB_STATE_CANCELLED;
   JOB_STATE_EXPIRED].

Definition api_endpoint (self : VertexAICustomTrainingJob) : string :=
  region self ++ "-aiplatform.googleapis.com".

(** The body of the [with] block of [run]: submit, signal, watch. *)
Definition submit_and_watch (fuel : nat) (self : VertexAICustomTrainingJob)
    (job_spec : CustomJobSpec) (task_status : option TaskStatus)
  : M CustomJob :=
  job_run <- _create_and_begin_job self job_spec ;;
  (match task_status with
   | Some _ => started_name <- job_name self ;; emit (TaskStarted started_name)
   | None => ret tt
   end) ;;
  _watch_job_run fuel self (cj_name job_run) (state job_run)
                 terminal_states (Some (maximum_run_time self)).

(** The end of [run]: what is made of the final snapshot. *)
Definition interpret_final (self : VertexAICustomTrainingJob)
    (final_job_run : CustomJob) : M VertexAICustomTrainingJobResult :=
  let error_msg := error_message final_job_run in
  if PyStr.truthy error_msg then
    raise (RuntimeError (_log_prefix self ++ ": " ++ error_msg))
  else
    let status_code :=
      if JobStateOps.eqb (state final_job_run) JOB_STATE_SUCCEEDED
      then 0%Z else 1%Z in
    ret {| identifier := display_name final_job_run;
           status_code := status_code |}.

(** [run]. *)
Definition run (fuel : nat) (self : VertexAICustomTrainingJob)
    (task_status : option TaskStatus) : M VertexAICustomTrainingJobResult :=
  job_spec <- lift (_build_job_spec self) ;;
  final_job_run <-
    with_client (api_endpoint self)
      (submit_and_watch fuel self job_spec task_status) ;;
  interpret_final self final_job_run.

(** [_kill_job]. *)
Definition _kill_job (self : VertexAICustomTrainingJob)
    (full_job_name : string) : M unit :=
  try_except
    (client_cancel_custom_job full_job_name)
    (fun exc =>
       if PyStr.contains "does not exist" (exn_str exc) then
         raise (InfrastructureNotFound
                  ("Cannot stop Vertex AI job; the job name "
                   ++ repr full_job_name ++ " could not be found.")
                  exc)
       else raise exc).

(** [kill]. *)
Definition kill (self : VertexAICustomTrainingJob) (identifier : string)
    (grace_seconds : Z) : M unit :=
  with_client (api_endpoint self)
    (_kill_job self identifier ;;
     logger_info ("Requested to cancel " ++ identifier ++ "...")).

End Block.

(** The value of the [env] entry named [k] in a container spec. *)
Fixpoint env_entry (l : list EnvVar) (k : string) : option string :=
  match l with
  | [] => None
  | e :: l' => if String.eqb (ev_name e) k then Some (ev_value e) else env_entry l' k
  end.

(** [record evs st]: [st] after the events [evs]; [advance u t g st]: [st]
    after [u] uuids, [t] clock readings and [g] polls were consumed. *)
Definition record (evs : list event) (st : State) : State :=
  {| uuid_calls := uuid_calls st;
     time_calls := time_calls st;
     get_calls := get_calls st;
     trace := trace st ++ evs |}.

Definition advance (u t g : nat) (st : State) : State :=
  {| uuid_calls := u + uuid_calls st;
     time_calls := t + time_calls st;
     get_calls := g + get_calls st;
     trace := trace st |}.

Definition remote_calls (st : State) : list event :=
  filter is_remote_call (trace st).

(** The state in which a [with] block is left with outcome [r], its body
    having ended in [st]: the client is closed, unless the body has not
    ended. *)
Definition leaving {A} (r : outcome A) (st : State) : State :=
  match r with
  | OutOfFuel => st
  | _ => record [ClientClosed] st
  end.

(** What leaving the [with] block with outcome [r] adds to the trace. *)
Definition closing {A} (r : outcome A) : list event :=
  match r with
  | OutOfFuel => []
  | _ => [ClientClosed]
  end.


(** What one iteration of the watch loop leaves behind when its poll is
    answered with [r]: the poll, one log record (a transition at level INFO,
    which evaluates [job_name] once more, or "Job not found." at level DEBUG)
    and one clock reading. [repo] is the third segment of the image. *)
Definition polled `{Externals} (self : VertexAICustomTrainingJob)
    (repo : string) (w : Env) (job : string) (r : CustomJob)
    (last_state : JobState) (st : State) : State :=
  let st1 := advance 0 0 1 (record [GetCustomJob job] st) in
  let st2 :=
    if JobStateOps.eqb (state r) last_state
    then record [Log DEBUG (_log_prefix self ++ ": Job not found.")] st1
    else record [Log INFO (_log_prefix self ++ ": "
                           ++ (repo ++ "-" ++ uuid4_hex w (uuid_calls st))
                           ++ " has new " ++ state_label (state r))]
                (advance 1 0 0 st1) in
  advance 0 1 0 st2.

(** [last_state] after a poll answered with [r]. *)
Definition seen (r : CustomJob) (last_state : JobState) : JobState :=
  if JobStateOps.eqb (state r) last_state then last_state else state r.

(** The events of one iteration that neither ends the loop nor times out. *)
Definition iteration_events `{Externals} (self : VertexAICustomTrainingJob)
    (job : string) (log : event) : list event :=
  [GetCustomJob job; log; Sleep (job_watch_poll_interval self)].

Definition sleep_error : exn := ValueError "sleep length must be non-negative".

(** The [n]-th display name generated after [st], for an image whose third
    segment is [repo]. *)
Definition nth_name (repo : string) (w : Env) (st : State) (n : nat) : string :=
  repo ++ "-" ++ uuid4_hex w (n + uuid_calls st).

(** [resource_name] in [_create_and_begin_job]. *)
Definition parent_resource (self : VertexAICustomTrainingJob) : string :=
  "projects/" ++ str_optional (project (gcp_credentials self))
  ++ "/locations/" ++ region self.

(** The events of a successful [_create_and_begin_job] started in [st] and
    answered with [created]: the job is submitted under the first generated
    name, the two log records show the second and the third. *)
Definition submission_events `{Externals} (self : VertexAICustomTrainingJob)
    (spec : CustomJobSpec) (repo shown_command : string) (w : Env) (st : State)
    (created : CustomJob) : list event :=
  [Log INFO
     (_log_prefix self ++ ": Job " ++ repr (nth_name repo w st 1)
      ++ " starting to run " ++ "the command " ++ repr shown_command
      ++ " in region " ++ repr (region self) ++ " using image "
      ++ repr (image self));
   CreateCustomJob (parent_resource self) (new_CustomJob (nth_name repo w st 0) spec);
   Log INFO
     (_log_prefix self ++ ": Job " ++ repr (nth_name repo w st 2)
      ++ " has successfully started; " ++ "the full job name is "
      ++ repr (cj_name created))].

(** What [run] does with its [task_status] after the submission started in
    [st]: the fourth generated name is handed over. *)
Definition started_events (task_status : option TaskStatus) (repo : string)
    (w : Env) (st : State) : list event :=
  match task_status with
  | Some _ => [TaskStarted (nth_name repo w st 3)]
  | None => []
  end.

Definition names_used (task_status : option TaskStatus) : nat :=
  match task_status with
  | Some _ => 4
  | None => 3
  end.

Definition is_started (e : event) : bool :=
  match e with
  | TaskStarted _ => true
  | _ => false
  end.

(** The events that the watch loop can produce. *)
Definition is_watch_event (e : event) : bool :=
  match e with
  | GetCustomJob _ | Log _ _ | Sleep _ => true
  | _ => false
  end.

Definition transition_message `{Externals} (self : VertexAICustomTrainingJob)
    (shown_name : string) (s : JobState) : string :=
  _log_prefix self ++ ": " ++ shown_name ++ " has new " ++ state_label s.

Definition not_found_message `{Externals} (self : VertexAICustomTrainingJob)
  : string :=
  _log_prefix self ++ ": Job not found.".

(** ** Concrete configurations and remote clients, used to run the model *)

Module Sample.

(** Seconds with one decimal, from microseconds. *)
Definition seconds (us : Z) : string :=
  NilZero.string_of_int (Z.to_int (us / 1000000)) ++ "."
  ++ NilZero.string_of_int (Z.to_int ((us mod 1000000) / 100000)).

(** Renderings that are right on strings without quotes or escapes. *)
Definition externals : Externals :=
  {| repr := fun s => "'" ++ s ++ "'";
     str_seconds := seconds;
     str_CustomJob := fun c => "display_name: " ++ display_name c;
     FromTimedelta := fun _ => None;
     _base_environment := [("KEY", "base"); ("PREFECT_API_URL", "http://api")] |}.

Definition credentials : GcpCredentials :=
  {| _service_account_email := Some "runner@proj.iam.gserviceaccount.com";
     project := Some "proj" |}.

(** A block with the defaults of the class, a ten-second maximum run time
    and a five-second poll interval. *)
Definition block (img : string) : VertexAICustomTrainingJob :=
  {| name := None;
     command := Some ["echo"; "hello world"];
     gcp_credentials := credentials;
     region := "us-east1";
     image := img;
     env := [("KEY", "override"); ("MODE", "train")];
     machine_type := "n1-standard-4";
     accelerator_type := None;
     accelerator_count := None;
     boot_disk_type := "pd-ssd";
     boot_disk_size_gb := 100;
     maximum_run_time := 10000000;
     network := None;
     reserved_ip_ranges := None;
     service_account := None;
     job_watch_poll_interval := 5000000 |}.

Definition good : VertexAICustomTrainingJob :=
  block "us-docker.pkg.dev/cloudrun/container/job:latest".

Definition bad_image : VertexAICustomTrainingJob := block "gcr.io/job".

Definition full_name : string :=
  "projects/proj/locations/us-east1/customJobs/42".

Definition snapshot (s : JobState) (err : string) : CustomJob :=
  {| cj_name := full_name;
     display_name := "container-00";
     job_spec := None;
     state := s;
     error_message := err |}.

Definition digit (n : nat) : string :=
  String (ascii_of_nat (48 + Nat.modulo n 10)) EmptyString.

(** A client that accepts the submission with state [QUEUED] and answers
    the successive polls with [polls], then with [rest] for ever; the clock
    advances by [tick] microseconds between two readings. *)
Definition scripted (polls : list (exn + CustomJob)) (rest : exn + CustomJob)
    (tick : Z) (cancel : option exn) : Env :=
  {| uuid4_hex := fun n => "0" ++ digit n;
     time_time := fun n => (Z.of_nat n * tick)%Z;
     get_job_service_client := fun _ => None;
     create_custom_job := fun _ _ => inr (snapshot JOB_STATE_QUEUED EmptyString);
     get_custom_job := fun n _ => nth n polls rest;
     cancel_custom_job := fun _ => cancel |}.

Definition ok (s : JobState) : exn + CustomJob := inr (snapshot s EmptyString).

Definition queued_running_succeeded : Env :=
  scripted [ok JOB_STATE_QUEUED; ok JOB_STATE_QUEUED; ok JOB_STATE_RUNNING;
            ok JOB_STATE_SUCCEEDED]
           (ok JOB_STATE_SUCCEEDED) 1000000 None.

Definition never_terminal : Env :=
  scripted [] (ok JOB_STATE_RUNNING) 5000000 None.

Definition failing (err : string) : Env :=
  scripted [ok JOB_STATE_RUNNING] (inr (snapshot JOB_STATE_FAILED err))
           1000000 None.

Definition unavailable_once : Env :=
  scripted [ok JOB_STATE_RUNNING; inl (ServiceError "503 Service Unavailable")]
           (ok JOB_STATE_SUCCEEDED) 1000000 None.

Definition cancel_answers (r : option exn) : Env :=
  scripted [] (ok JOB_STATE_RUNNING) 1000000 r.

End Sample.

(** ** Further notions, for the properties of the whole module *)

(** Number of occurrences of a character in a string. *)
Fixpoint count_char (c : ascii) (s : string) : nat :=
  match s with
  | EmptyString => 0
  | String x s' => (if Ascii.eqb x c then 1 else 0) + count_char c s'
  end.

(** [k in d]. *)
Definition has_key (d : PyDict.dict) (k : string) : bool :=
  match PyDict.get d k with
  | Some _ => true
  | None => false
  end.

Definition count_events (p : event -> bool) (evs : list event) : nat :=
  length (filter p evs).

Definition is_poll (e : event) : bool :=
  match e with
  | GetCustomJob _ => true
  | _ => false
  end.

Definition is_sleep (e : event) : bool :=
  match e with
  | Sleep _ => true
  | _ => false
  end.

Definition is_cancel (e : event) : bool :=
  match e with
  | CancelCustomJob _ => true
  | _ => false
  end.

Definition is_client_event (e : event) : bool :=
  match e with
  | ClientOpened _ | ClientClosed => true
  | _ => false
  end.

(** The events that the body of the [with] block of [run] can produce. *)
Definition is_run_event (e : event) : bool :=
  match e with
  | Log _ _ | CreateCustomJob _ _ | GetCustomJob _ | TaskStarted _ | Sleep _ => true
  | _ => false
  end.

(** Number of changes of state along [states], starting from [last]. *)
Fixpoint transitions (last : JobState) (states : list JobState) : nat :=
  match states with
  | [] => 0
  | s :: rest => (if JobStateOps.eqb s last then 0 else 1) + transitions s rest
  end.

(** The state of the process after the watch loop went through the polls
    answered with [ps], none of them ending the loop: each iteration leaves
    what [polled] says, then sleeps. *)
Fixpoint followed `{Externals} (self : VertexAICustomTrainingJob)
    (repo : string) (w : Env) (job : string) (ps : list CustomJob)
    (last_state : JobState) (st : State) : State :=
  match ps with
  | [] => st
  | r :: rest =>
      followed self repo w job rest (state r)
        (record [Sleep (job_watch_poll_interval self)]
                (polled self repo w job r last_state st))
  end.


(** Two successive accesses to the [job_name] property. *)
Definition job_name_twice (self : VertexAICustomTrainingJob) : M (string * string) :=
  first <- job_name self ;;
  second <- job_name self ;;
  ret (first, second).

Module MoreSamples.

(** A client that refuses the submission. *)
Definition refusing : Env :=
  {| uuid4_hex := fun n => "0" ++ Sample.digit n;
     time_time := fun n => (Z.of_nat n * 1000000)%Z;
     get_job_service_client := fun _ => None;
     create_custom_job := fun _ _ => inl (ServiceError "429 Quota exceeded");
     get_custom_job := fun _ _ => Sample.ok JOB_STATE_RUNNING;
     cancel_custom_job := fun _ => None |}.

(** Credentials from which no client can be made. *)
Definition no_client : Env :=
  {| uuid4_hex := fun n => "0" ++ Sample.digit n;
     time_time := fun n => (Z.of_nat n * 1000000)%Z;
     get_job_service_client := fun _ => Some (ServiceError "no credentials");
     create_custom_job := fun _ _ => Sample.ok JOB_STATE_QUEUED;
     get_custom_job := fun _ _ => Sample.ok JOB_STATE_RUNNING;
     cancel_custom_job := fun _ => None |}.

(** The sample block with another explicit service account, and without
    command. *)
Definition with_account (explicit inferred : option string)
  : VertexAICustomTrainingJob :=
  {| name := Some "trainer";
     command := Some ["python"; "train.py"];
     gcp_credentials :=
       {| _service_account_email := inferred; project := Some "proj" |};
     region := "europe-west4";
     image := "gcr.io/proj/trainer";
     env := [("MODE", "train"); ("KEY", "override"); ("SEED", "7")];
     machine_type := "n1-standard-4";
     accelerator_type := None;
     accelerator_count := None;
     boot_disk_type := "pd-ssd";
     boot_disk_size_gb := 100;
     maximum_run_time := 10000000;
     network := None;
     reserved_ip_ranges := None;
     service_account := explicit;
     job_watch_poll_interval := 5000000 |}.


Definition without_command : VertexAICustomTrainingJob :=
  {| name := None;
     command := None;
     gcp_credentials := Sample.credentials;
     region := "us-east1";
     image := "us-docker.pkg.dev/cloudrun/container/job:latest";
     env := [];
     machine_type := "n1-standard-4";
     accelerator_type := None;
     accelerator_count := None;
     boot_disk_type := "pd-ssd";
     boot_disk_size_gb := 100;
     maximum_run_time := 10000000;
     network := None;
     reserved_ip_ranges := None;
     service_account := None;
     job_watch_poll_interval := 5000000 |}.

(** A job that is seen running twice and then succeeded, the last answer
    coming [late] microseconds after the previous one. *)
Definition slow_finish (late : Z) : Env :=
  {| uuid4_hex := fun n => "0" ++ Sample.digit n;
     time_time := fun n => if Nat.leb 3 n then (2000000 + late)%Z
                           else (Z.of_nat n * 1000000)%Z;
     get_job_service_client := fun _ => None;
     create_custom_job := fun _ _ => Sample.ok JOB_STATE_QUEUED;
     get_custom_job := fun n _ =>
       nth n [Sample.ok JOB_STATE_RUNNING; Sample.ok JOB_STATE_RUNNING]
             (Sample.ok JOB_STATE_SUCCEEDED);
     cancel_custom_job := fun _ => None |}.

End MoreSamples.

(** ** Basic facts about the string and dictionary operations *)

Lemma prefix_refl (s : string) : String.prefix s s = true.
Proof.
  induction s as [|c s IH]; simpl; [reflexivity|].
  destruct (ascii_dec c c) as [_|n]; [exact IH|contradiction].
Qed.

Lemma contains_suffix (p x : string) : PyStr.contains x (p ++ x) = true.
Proof.
  induction p as [|c p IH].
  - change (EmptyString ++ x) with x.
    destruct x; cbn [PyStr.contains]; rewrite prefix_refl; reflexivity.
  - change (String c p ++ x) with (String c (p ++ x)).
    cbn [PyStr.contains]. rewrite IH. apply orb_true_r.
Qed.

Lemma str_append_assoc (a b c : string) : (a ++ b) ++ c = a ++ (b ++ c).
Proof. induction a as [|x a IH]; simpl; [reflexivity|rewrite IH; reflexivity]. Qed.

Lemma str_append_inj (a b c : string) : a ++ b = a ++ c -> b = c.
Proof.
  induction a as [|x a IH]; simpl; intros E; [exact E|].
  injection E as E. apply IH. exact E.
Qed.

Lemma truthy_false (s : string) : PyStr.truthy s = false <-> s = EmptyString.
Proof. destruct s; simpl; split; congruence. Qed.

Lemma truthy_true (s : string) : PyStr.truthy s = true <-> s <> EmptyString.
Proof. destruct s; simpl; split; congruence. Qed.

Lemma state_eqb_eq (a b : JobState) : JobStateOps.eqb a b = true <-> a = b.
Proof.
  unfold JobStateOps.eqb. rewrite Z.eqb_eq. split; [|intros ->; reflexivity].
  destruct a, b; simpl; intros E; try reflexivity; discriminate E.
Qed.

Lemma state_eqb_refl (a : JobState) : JobStateOps.eqb a a = true.
Proof. apply state_eqb_eq. reflexivity. Qed.

Lemma state_mem_In (s : JobState) (l : list JobState) :
  JobStateOps.mem s l = true <-> In s l.
Proof.
  unfold JobStateOps.mem. rewrite existsb_exists. split.
  - intros [x [Hx E]]. apply state_eqb_eq in E. subst. exact Hx.
  - intros Hs. exists s. split; [exact Hs|apply state_eqb_refl].
Qed.

Module DictFacts.
Import PyDict.

Lemma get_set_same (d : dict) (k v : string) : get (set d k v) k = Some v.
Proof.
  induction d as [|[k' v'] d IH]; simpl.
  - rewrite String.eqb_refl. reflexivity.
  - destruct (String.eqb k' k) eqn:E; simpl; rewrite E; [reflexivity|exact IH].
Qed.

Lemma get_set_other (d : dict) (k k' v : string) :
  k <> k' -> get (set d k v) k' = get d k'.
Proof.
  intros Hne. induction d as [|[k0 v0] d IH]; simpl.
  - destruct (String.eqb k k') eqn:E; [|reflexivity].
    apply String.eqb_eq in E. contradiction.
  - destruct (String.eqb k0 k) eqn:E; simpl.
    + apply String.eqb_eq in E. subst k0.
      destruct (String.eqb k k') eqn:E'; [|reflexivity].
      apply String.eqb_eq in E'. contradiction.
    + rewrite IH. reflexivity.
Qed.

Lemma get_None_not_key (d : dict) (k : string) :
  ~ In k (keys d) -> get d k = None.
Proof.
  induction d as [|[k0 v0] d IH]; simpl; [reflexivity|].
  intros Hn. destruct (String.eqb k0 k) eqn:E.
  - apply String.eqb_eq in E. exfalso. apply Hn. left. exact E.
  - apply IH. intros Hin. apply Hn. right. exact Hin.
Qed.

Lemma keys_set (d : dict) (k v : string) :
  keys (set d k v) =
    match get d k with
    | Some _ => keys d
    | None => (keys d ++ [k])%list
    end.
Proof.
  induction d as [|[k0 v0] d IH]; simpl; [reflexivity|].
  destruct (String.eqb k0 k) eqn:E; simpl; [reflexivity|].
  rewrite IH. destruct (get d k); reflexivity.
Qed.

Lemma wf_set (d : dict) (k v : string) : wf d -> wf (set d k v).
Proof.
  unfold wf. intros Hd. rewrite keys_set.
  destruct (get d k) eqn:E; [exact Hd|].
  apply NoDup_app; [exact Hd|repeat constructor; simpl; tauto|].
  intros x Hx [Hk|[]]. subst x.
  revert Hx E. clear. induction d as [|[k0 v0] d IH]; simpl; [tauto|].
  intros [Hk|Hin]; destruct (String.eqb k0 k) eqn:E; try discriminate.
  - subst k0. rewrite String.eqb_refl in E. discriminate.
  - intros Hg. exact (IH Hin Hg).
Qed.

Lemma wf_merge (a b : dict) : wf a -> wf (merge a b).
Proof.
  unfold merge. revert a. induction b as [|[k v] b IH]; simpl; intros a Ha.
  - exact Ha.
  - apply IH. apply wf_set. exact Ha.
Qed.

(** Lookup in [{**a, **b}]: the entry of [b] if there is one, else that of
    [a]. *)
Lemma get_merge (a b : dict) (k : string) :
  wf b ->
  get (merge a b) k =
    match get b k with
    | Some v => Some v
    | None => get a k
    end.
Proof.
  unfold merge, wf. revert a. induction b as [|[k1 v1] b IH]; simpl; intros a Hb.
  - reflexivity.
  - inversion Hb as [|? ? Hnotin Hb']; subst.
    rewrite (IH _ Hb'). destruct (String.eqb k1 k) eqn:E.
    + apply String.eqb_eq in E. subst k1.
      rewrite (get_None_not_key _ _ Hnotin). apply get_set_same.
    + destruct (get b k); [reflexivity|].
      apply get_set_other. intros ->. rewrite String.eqb_refl in E. discriminate.
Qed.

End DictFacts.

Lemma env_entry_env_list `{Externals} (d : PyDict.dict) (k : string) :
  env_entry (env_list_of d) k = PyDict.get d k.
Proof.
  induction d as [|[k0 v0] d IH]; simpl; [reflexivity|].
  destruct (String.eqb k0 k); [reflexivity|exact IH].
Qed.

Lemma env_list_names `{Externals} (d : PyDict.dict) :
  map ev_name (env_list_of d) = PyDict.keys d.
Proof.
  unfold env_list_of, PyDict.keys. rewrite map_map. reflexivity.
Qed.

(** ** Properties *)

Section Properties.

Context `{Externals}.

Lemma bind_Ret {A B} (m : M A) (k : A -> M B) w st a st' :
  m w st = (Ret a, st') -> bind m k w st = k a w st'.
Proof. unfold bind. intros ->. reflexivity. Qed.

Lemma bind_Raise {A B} (m : M A) (k : A -> M B) w st e st' :
  m w st = (Raise e, st') -> bind m k w st = (Raise e, st').
Proof. unfold bind. intros ->. reflexivity. Qed.

Lemma record_record a b st : record b (record a st) = record (a ++ b) st.
Proof. unfold record. simpl. rewrite app_assoc. reflexivity. Qed.

Lemma job_name_ok self repo w st :
  nth_error (PyStr.split "/" (image self)) 2 = Some repo ->
  job_name self w st =
    (Ret (repo ++ "-" ++ uuid4_hex w (uuid_calls st)), advance 1 0 0 st).
Proof. unfold job_name. intros ->. reflexivity. Qed.

Lemma job_name_bad self w st :
  (length (PyStr.split "/" (image self)) < 3)%nat ->
  exists m, job_name self w st = (Raise (ValueError m), st).
Proof.
  intros Hlen. unfold job_name.
  destruct (nth_error (PyStr.split "/" (image self)) 2) eqn:E.
  - assert (Hn : nth_error (PyStr.split "/" (image self)) 2 <> None) by congruence.
    apply nth_error_Some in Hn. lia.
  - eexists. reflexivity.
Qed.

Lemma build_job_spec_cases self :
  match py_or (service_account self)
              (_service_account_email (gcp_credentials self)) with
  | Some sa =>
      exists spec, _build_job_spec self = Ret spec /\ js_service_account spec = sa
  | None => exists m, _build_job_spec self = Raise (ValueError m)
  end.
Proof.
  unfold _build_job_spec.
  destruct (py_or _ _); eexists; [split|]; reflexivity.
Qed.

(** C5. The environment of the built spec is the base environment updated
    with the block's [env]: for every key, the entry of the container spec
    is the value given by [env] when [env] has the key, and otherwise the
    value of the base environment (absent when neither has it); no name
    occurs twice. *)
Theorem build_job_spec_env_merge self spec :
  PyDict.wf _base_environment ->
  PyDict.wf (env self) ->
  _build_job_spec self = Ret spec ->
  exists pool,
    worker_pool_specs spec = [pool] /\
    NoDup (map ev_name (cs_env (container_spec pool))) /\
    forall k,
      env_entry (cs_env (container_spec pool)) k =
        match PyDict.get (env self) k with
        | Some v => Some v
        | None => PyDict.get _base_environment k
        end.
Proof.
  intros Hbase Henv. unfold _build_job_spec.
  destruct (py_or _ _); [|discriminate].
  intros E. injection E as <-. eexists. split; [reflexivity|]. simpl. split.
  - rewrite env_list_names. apply DictFacts.wf_merge. exact Hbase.
  - intros k. rewrite env_entry_env_list. apply DictFacts.get_merge. exact Henv.
Qed.

(** C9. For a valid configuration, [preview] returns the rendering of the
    job that would be submitted, and leaves the trace as it was: no remote
    call, and in particular no submission, is made. *)
Theorem preview_makes_no_remote_call self spec repo w st :
  _build_job_spec self = Ret spec ->
  nth_error (PyStr.split "/" (image self)) 2 = Some repo ->
  preview self w st =
    (Ret (str_CustomJob
            (new_CustomJob (repo ++ "-" ++ uuid4_hex w (uuid_calls st)) spec)),
     advance 1 0 0 st)
  /\ trace (snd (preview self w st)) = trace st
  /\ remote_calls (snd (preview self w st)) = remote_calls st.
Proof.
  intros Hspec Hrepo.
  assert (E : preview self w st =
    (Ret (str_CustomJob
            (new_CustomJob (repo ++ "-" ++ uuid4_hex w (uuid_calls st)) spec)),
     advance 1 0 0 st)).
  { unfold preview, lift. rewrite Hspec.
    unfold bind at 1. rewrite (bind_Ret _ _ _ _ _ _ (job_name_ok _ _ w st Hrepo)).
    reflexivity. }
  rewrite E. repeat split.
Qed.

Lemma emit_eq e w st : emit e w st = (Ret tt, record [e] st).
Proof. reflexivity. Qed.

Lemma with_client_eq {A} ep (body : M A) w st r st' :
  get_job_service_client w ep = None ->
  body w (record [ClientOpened ep] st) = (r, st') ->
  with_client ep body w st = (r, leaving r st').
Proof.
  intros Hopen Hbody. unfold with_client. rewrite Hopen.
  rewrite (bind_Ret _ _ _ _ _ _ (emit_eq _ w st)). rewrite Hbody.
  destruct r; reflexivity.
Qed.

(** A client that cannot be obtained: the exception of the credentials goes
    through, and nothing was opened. *)
Lemma with_client_refused {A} ep (body : M A) w st e :
  get_job_service_client w ep = Some e ->
  with_client ep body w st = (Raise e, st).
Proof. intros Hopen. unfold with_client. rewrite Hopen. reflexivity. Qed.

Lemma remote_calls_record evs st :
  remote_calls (record evs st) = (remote_calls st ++ filter is_remote_call evs)%list.
Proof. unfold remote_calls, record. simpl. apply filter_app. Qed.

(** C3. [kill], once it holds a client: when the cancel call succeeds,
    nothing is raised; when it fails with an exception whose text contains
    "does not exist", [InfrastructureNotFound] is raised (chained to that
    exception); when it fails in any other way, that exception is raised
    unchanged. The client is closed in the three cases. *)
Theorem kill_outcomes self job grace w st :
  get_job_service_client w (api_endpoint self) = None ->
  let called :=
    record [ClientOpened (api_endpoint self); CancelCustomJob job] st in
  (cancel_custom_job w job = None ->
   kill self job grace w st =
     (Ret tt,
      record [Log INFO ("Requested to cancel " ++ job ++ "..."); ClientClosed]
             called))
  /\ (forall exc,
        cancel_custom_job w job = Some exc ->
        PyStr.contains "does not exist" (exn_str exc) = true ->
        kill self job grace w st =
          (Raise (InfrastructureNotFound
                    ("Cannot stop Vertex AI job; the job name " ++ repr job
                     ++ " could not be found.") exc),
           record [ClientClosed] called))
  /\ (forall exc,
        cancel_custom_job w job = Some exc ->
        PyStr.contains "does not exist" (exn_str exc) = false ->
        kill self job grace w st = (Raise exc, record [ClientClosed] called)).
Proof.
  intros Hopen called. unfold kill.
  assert (Hcancel : forall st0,
    client_cancel_custom_job job w st0 =
      (match cancel_custom_job w job with
       | Some e => Raise e
       | None => Ret tt
       end, record [CancelCustomJob job] st0)).
  { intros st0. unfold client_cancel_custom_job.
    rewrite (bind_Ret _ _ _ _ _ _ (emit_eq _ w st0)).
    destruct (cancel_custom_job w job); reflexivity. }
  repeat split.
  - intros Hc.
    rewrite (with_client_eq _ _ w st (Ret tt)
               (record [Log INFO ("Requested to cancel " ++ job ++ "...")]
                       (record [CancelCustomJob job]
                               (record [ClientOpened (api_endpoint self)] st)))).
    + unfold called, leaving. rewrite !record_record. reflexivity.
    + exact Hopen.
    + unfold bind, _kill_job, try_except. rewrite Hcancel, Hc. reflexivity.
  - intros exc Hc Hmatch.
    rewrite (with_client_eq _ _ w st
               (Raise (InfrastructureNotFound
                         ("Cannot stop Vertex AI job; the job name " ++ repr job
                          ++ " could not be found.") exc))
               (record [CancelCustomJob job]
                       (record [ClientOpened (api_endpoint self)] st))).
    + unfold called, leaving. rewrite !record_record. reflexivity.
    + exact Hopen.
    + unfold bind, _kill_job, try_except. rewrite Hcancel, Hc, Hmatch. reflexivity.
  - intros exc Hc Hmatch.
    rewrite (with_client_eq _ _ w st (Raise exc)
               (record [CancelCustomJob job]
                       (record [ClientOpened (api_endpoint self)] st))).
    + unfold called, leaving. rewrite !record_record. reflexivity.
    + exact Hopen.
    + unfold bind, _kill_job, try_except. rewrite Hcancel, Hc, Hmatch. reflexivity.
Qed.

(** C4 (amended). With an image of fewer than three segments, generating
    the display name fails with [ValueError]; so do [preview] and, once it
    holds a client, [run], neither of which makes a remote call. Building
    the spec does not look at the image: it succeeds whenever a service
    account is resolved. *)
Theorem short_image_fails_without_remote_call self :
  (length (PyStr.split "/" (image self)) < 3)%nat ->
  (forall w st, exists m, job_name self w st = (Raise (ValueError m), st))
  /\ (forall w st, exists m, preview self w st = (Raise (ValueError m), st))
  /\ (forall fuel task_status w st,
        get_job_service_client w (api_endpoint self) = None ->
        exists m st',
          run fuel self task_status w st = (Raise (ValueError m), st')
          /\ remote_calls st' = remote_calls st)
  /\ (forall sa,
        py_or (service_account self)
              (_service_account_email (gcp_credentials self)) = Some sa ->
        exists spec, _build_job_spec self = Ret spec).
Proof.
  intros Hshort. repeat split.
  - intros w st. apply job_name_bad. exact Hshort.
  - intros w st. unfold preview, lift.
    pose proof (build_job_spec_cases self) as Hb.
    destruct (py_or _ _).
    + destruct Hb as [spec [Hb _]]. rewrite Hb.
      destruct (job_name_bad self w st Hshort) as [m Hm].
      exists m. unfold bind at 1. rewrite (bind_Raise _ _ _ _ _ _ Hm). reflexivity.
    + destruct Hb as [m Hb]. rewrite Hb. exists m. reflexivity.
  - intros fuel task_status w st Hopen. unfold run, lift.
    pose proof (build_job_spec_cases self) as Hb.
    destruct (py_or _ _).
    + destruct Hb as [spec [Hb _]]. rewrite Hb.
      destruct (job_name_bad self w (record [ClientOpened (api_endpoint self)] st)
                  Hshort) as [m Hm].
      exists m. eexists. unfold bind at 1.
      rewrite (bind_Raise _ _ _ _ (ValueError m)
                 (record [ClientClosed]
                         (record [ClientOpened (api_endpoint self)] st))).
      * split; [reflexivity|]. rewrite !remote_calls_record. simpl.
        rewrite !app_nil_r. reflexivity.
      * apply (with_client_eq _ _ w st (Raise (ValueError m)) _ Hopen).
        unfold submit_and_watch, _create_and_begin_job.
        apply bind_Raise. apply bind_Raise. exact Hm.
    + destruct Hb as [m Hb]. rewrite Hb. exists m, st. split; reflexivity.
  - intros sa Hsa. pose proof (build_job_spec_cases self) as Hb.
    rewrite Hsa in Hb. destruct Hb as [spec [Hb _]]. exists spec. exact Hb.
Qed.

(** *** The watch loop, one iteration at a time *)

Lemma watch_loop_done fuel self job until timeout t0 s0 ls r w st :
  JobStateOps.mem s0 until = true ->
  watch_loop fuel self job until timeout t0 s0 ls (Some r) w st = (Ret r, st).
Proof. intros Hmem. destruct fuel; simpl; rewrite Hmem; reflexivity. Qed.

Lemma watch_loop_poll_raises fuel self job until timeout t0 s0 ls jr w st e :
  JobStateOps.mem s0 until = false ->
  get_custom_job w (get_calls st) job = inl e ->
  watch_loop (S fuel) self job until timeout t0 s0 ls jr w st =
    (Raise e, advance 0 0 1 (record [GetCustomJob job] st)).
Proof.
  intros Hmem Hget. cbn [watch_loop]. rewrite Hmem.
  unfold bind at 1. unfold client_get_custom_job.
  rewrite (bind_Ret _ _ _ _ _ _ (emit_eq _ w st)). simpl.
  rewrite Hget. reflexivity.
Qed.

Lemma watch_loop_iteration fuel self repo job until timeout t0 s0 ls jr w st r :
  nth_error (PyStr.split "/" (image self)) 2 = Some repo ->
  JobStateOps.mem s0 until = false ->
  get_custom_job w (get_calls st) job = inr r ->
  watch_loop (S fuel) self job until timeout t0 s0 ls jr w st =
    let st1 := polled self repo w job r ls st in
    let elapsed := (time_time w (time_calls st) - t0)%Z in
    if timed_out timeout elapsed then (Raise (timeout_error elapsed), st1)
    else if (job_watch_poll_interval self <? 0)%Z then (Raise sleep_error, st1)
    else watch_loop fuel self job until timeout t0 (state r) (seen r ls) (Some r)
                    w (record [Sleep (job_watch_poll_interval self)] st1).
Proof.
  intros Hrepo Hmem Hget. cbn [watch_loop]. rewrite Hmem.
  unfold bind at 1. unfold client_get_custom_job.
  rewrite (bind_Ret _ _ _ _ _ _ (emit_eq _ w st)). simpl get_calls.
  rewrite Hget. cbv zeta.
  unfold polled, seen.
  destruct (JobStateOps.eqb (state r) ls) eqn:Echanged; simpl negb.
  - unfold bind at 1. unfold bind at 1. unfold logger_debug, emit, ret.
    unfold bind at 1. unfold time. simpl.
    destruct (timed_out timeout _); [reflexivity|].
    unfold sleep, sleep_error. destruct (_ <? 0)%Z; reflexivity.
  - unfold bind at 1. unfold bind at 1.
    rewrite (job_name_ok _ _ w _ Hrepo).
    unfold bind at 1. unfold logger_info, emit, ret.
    unfold bind at 1. unfold time. simpl.
    destruct (timed_out timeout _); [reflexivity|].
    unfold sleep, sleep_error. destruct (_ <? 0)%Z; reflexivity.
Qed.

(** *** Submission *)

Lemma state_eq (a b : State) :
  uuid_calls a = uuid_calls b -> time_calls a = time_calls b ->
  get_calls a = get_calls b -> trace a = trace b -> a = b.
Proof. destruct a, b. simpl. intros -> -> -> ->. reflexivity. Qed.

Lemma create_and_begin_ok self spec repo cmd w st created :
  nth_error (PyStr.split "/" (image self)) 2 = Some repo ->
  command self = Some cmd ->
  create_custom_job w (parent_resource self)
                    (new_CustomJob (nth_name repo w st 0) spec) = inr created ->
  _create_and_begin_job self spec w st =
    (Ret created,
     record (submission_events self spec repo (PyStr.join " " cmd) w st created)
            (advance 3 0 0 st)).
Proof.
  intros Hrepo Hcmd Hcreate. unfold _create_and_begin_job.
  rewrite (bind_Ret _ _ _ _ _ _ (job_name_ok _ _ w st Hrepo)).
  rewrite (bind_Ret _ _ _ _ _ _ (job_name_ok _ _ w _ Hrepo)).
  unfold join_command. rewrite Hcmd.
  unfold bind at 1. unfold ret at 1.
  unfold bind at 1. unfold logger_info at 1. rewrite emit_eq.
  unfold bind at 1. unfold client_create_custom_job.
  rewrite (bind_Ret _ _ _ _ _ _ (emit_eq _ w _)).
  change ("projects/" ++ str_optional (project (gcp_credentials self))
          ++ "/locations/" ++ region self) with (parent_resource self).
  change (repo ++ "-" ++ uuid4_hex w (uuid_calls st)) with (nth_name repo w st 0).
  rewrite Hcreate.
  rewrite (bind_Ret _ _ _ _ _ _ (job_name_ok _ _ w _ Hrepo)).
  unfold bind at 1. unfold logger_info at 1. rewrite emit_eq.
  unfold ret. f_equal. apply state_eq; try reflexivity.
  all: unfold submission_events, record, advance, nth_name; simpl;
    rewrite <- !app_assoc; reflexivity.
Qed.

(** A refused submission: the exception of the client goes through
    unchanged; there is no retry. *)
Lemma create_and_begin_refused self spec repo cmd w st e :
  nth_error (PyStr.split "/" (image self)) 2 = Some repo ->
  command self = Some cmd ->
  create_custom_job w (parent_resource self)
                    (new_CustomJob (nth_name repo w st 0) spec) = inl e ->
  fst (_create_and_begin_job self spec w st) = Raise e.
Proof.
  intros Hrepo Hcmd Hcreate. unfold _create_and_begin_job.
  rewrite (bind_Ret _ _ _ _ _ _ (job_name_ok _ _ w st Hrepo)).
  rewrite (bind_Ret _ _ _ _ _ _ (job_name_ok _ _ w _ Hrepo)).
  unfold join_command. rewrite Hcmd.
  unfold bind at 1. unfold ret at 1.
  unfold bind at 1. unfold logger_info at 1. rewrite emit_eq.
  unfold bind at 1. unfold client_create_custom_job.
  rewrite (bind_Ret _ _ _ _ _ _ (emit_eq _ w _)).
  change ("projects/" ++ str_optional (project (gcp_credentials self))
          ++ "/locations/" ++ region self) with (parent_resource self).
  change (repo ++ "-" ++ uuid4_hex w (uuid_calls st)) with (nth_name repo w st 0).
  rewrite Hcreate. reflexivity.
Qed.

(** The part of [submit_and_watch] that precedes the watch. *)
Lemma submit_and_watch_ok fuel self spec repo cmd task_status w st created :
  nth_error (PyStr.split "/" (image self)) 2 = Some repo ->
  command self = Some cmd ->
  create_custom_job w (parent_resource self)
                    (new_CustomJob (nth_name repo w st 0) spec) = inr created ->
  submit_and_watch fuel self spec task_status w st =
    _watch_job_run fuel self (cj_name created) (state created) terminal_states
      (Some (maximum_run_time self)) w
      (record (submission_events self spec repo (PyStr.join " " cmd) w st created
               ++ started_events task_status repo w st)
              (advance (names_used task_status) 0 0 st)).
Proof.
  intros Hrepo Hcmd Hcreate. unfold submit_and_watch.
  rewrite (bind_Ret _ _ _ _ _ _
             (create_and_begin_ok _ _ _ _ w st _ Hrepo Hcmd Hcreate)).
  destruct task_status as [ts|].
  - unfold bind at 1.
    rewrite (bind_Ret _ _ _ _ _ _ (job_name_ok _ _ w _ Hrepo)).
    rewrite emit_eq. f_equal. apply state_eq; try reflexivity.
    all: unfold started_events, record, advance, nth_name; simpl;
      rewrite <- !app_assoc; reflexivity.
  - unfold bind at 1. unfold ret at 1. reflexivity.
Qed.

(** *** The watch loop: iterations that go on *)

Lemma time_eq w st : time w st = (Ret (time_time w (time_calls st)), advance 0 1 0 st).
Proof. reflexivity. Qed.

Lemma timed_out_false limit elapsed :
  (elapsed <= limit)%Z -> timed_out (Some limit) elapsed = false.
Proof. intros Hle. unfold timed_out. apply Z.ltb_ge. exact Hle. Qed.


Lemma watch_loop_continue fuel self repo job until timeout t0 s0 ls jr w st r :
  nth_error (PyStr.split "/" (image self)) 2 = Some repo ->
  (0 <= job_watch_poll_interval self)%Z ->
  JobStateOps.mem s0 until = false ->
  get_custom_job w (get_calls st) job = inr r ->
  timed_out timeout (time_time w (time_calls st) - t0) = false ->
  watch_loop (S fuel) self job until timeout t0 s0 ls jr w st =
    watch_loop fuel self job until timeout t0 (state r) (seen r ls) (Some r) w
      (record [Sleep (job_watch_poll_interval self)] (polled self repo w job r ls st)).
Proof.
  intros Hrepo Hiv Hmem Hget Hclock.
  rewrite (watch_loop_iteration _ _ _ _ _ _ _ _ _ _ _ _ _ Hrepo Hmem Hget).
  cbv zeta. rewrite Hclock.
  apply Z.ltb_ge in Hiv. rewrite Hiv. reflexivity.
Qed.

Lemma polled_counters self repo w job r ls st :
  get_calls (polled self repo w job r ls st) = S (get_calls st)
  /\ time_calls (polled self repo w job r ls st) = S (time_calls st).
Proof. unfold polled. destruct (JobStateOps.eqb (state r) ls); split; reflexivity. Qed.

Lemma polled_unchanged self repo w job r ls st :
  state r = ls ->
  polled self repo w job r ls st =
    record [GetCustomJob job; Log DEBUG (not_found_message self)]
           (advance 0 1 1 st)
  /\ seen r ls = ls.
Proof.
  intros <-. unfold polled, seen. rewrite state_eqb_refl. split; [|reflexivity].
  apply state_eq; try reflexivity.
  unfold record, advance, not_found_message. simpl.
  rewrite <- app_assoc. reflexivity.
Qed.

Lemma polled_changed self repo w job r ls st :
  state r <> ls ->
  polled self repo w job r ls st =
    record [GetCustomJob job;
            Log INFO (transition_message self (nth_name repo w st 0) (state r))]
           (advance 1 1 1 st)
  /\ seen r ls = state r.
Proof.
  intros Hne. unfold polled, seen.
  destruct (JobStateOps.eqb (state r) ls) eqn:E.
  - apply state_eqb_eq in E. contradiction.
  - split; [|reflexivity]. apply state_eq; try reflexivity.
    unfold record, advance, transition_message, nth_name. simpl.
    rewrite <- app_assoc. reflexivity.
Qed.

Ltac polled_step lemma :=
  match goal with
  | |- context [polled ?self ?repo ?w ?job ?r ?ls ?s] =>
      let Hp := fresh "Hp" in
      let Hs := fresh "Hs" in
      destruct (lemma self repo w job r ls s) as [Hp Hs];
      [congruence|rewrite Hp, Hs; clear Hp Hs]
  end.

(** C6. Against a client that accepts the submission in state QUEUED and
    answers the successive polls with QUEUED, QUEUED, RUNNING and SUCCEEDED
    (the last one without error message), within the maximum run time, [run]
    returns status code 0 after exactly four polls, and the watch loop logs
    exactly two transitions (to RUNNING and to SUCCEEDED); the two polls
    that show no change are logged at level DEBUG only. *)
Theorem run_queued_queued_running_succeeded
    self spec repo cmd task_status w st created p1 p2 p3 p4 fuel :
  _build_job_spec self = Ret spec ->
  nth_error (PyStr.split "/" (image self)) 2 = Some repo ->
  command self = Some cmd ->
  (0 <= job_watch_poll_interval self)%Z ->
  get_job_service_client w (api_endpoint self) = None ->
  create_custom_job w (parent_resource self)
                    (new_CustomJob (nth_name repo w st 0) spec) = inr created ->
  state created = JOB_STATE_QUEUED ->
  get_custom_job w (get_calls st) (cj_name created) = inr p1 ->
  get_custom_job w (1 + get_calls st) (cj_name created) = inr p2 ->
  get_custom_job w (2 + get_calls st) (cj_name created) = inr p3 ->
  get_custom_job w (3 + get_calls st) (cj_name created) = inr p4 ->
  state p1 = JOB_STATE_QUEUED ->
  state p2 = JOB_STATE_QUEUED ->
  state p3 = JOB_STATE_RUNNING ->
  state p4 = JOB_STATE_SUCCEEDED ->
  error_message p4 = EmptyString ->
  (forall i, (1 <= i <= 4)%nat ->
     (time_time w (i + time_calls st) - time_time w (time_calls st)
      <= maximum_run_time self)%Z) ->
  (4 <= fuel)%nat ->
  let job := cj_name created in
  let quiet := iteration_events self job (Log DEBUG (not_found_message self)) in
  let transition n s :=
    iteration_events self job
      (Log INFO (transition_message self
                   (nth_name repo w st (n + names_used task_status)) s)) in
  let watched :=
    (quiet ++ quiet ++ transition 0%nat JOB_STATE_RUNNING
     ++ transition 1%nat JOB_STATE_SUCCEEDED)%list in
  exists st',
    run fuel self task_status w st =
      (Ret {| identifier := display_name p4; status_code := 0 |}, st')
    /\ get_calls st' = (4 + get_calls st)%nat
    /\ trace st' =
         (trace st ++ [ClientOpened (api_endpoint self)]
          ++ submission_events self spec repo (PyStr.join " " cmd) w st created
          ++ started_events task_status repo w st
          ++ watched ++ [ClientClosed])%list
    /\ length (filter (is_log INFO) watched) = 2%nat
    /\ length (filter (is_log DEBUG) watched) = 2%nat.
Proof.
  intros Hspec Hrepo Hcmd Hiv Hopen Hcreate Hs0 Hp1 Hp2 Hp3 Hp4 Hs1 Hs2 Hs3 Hs4
         Herr Hclock Hfuel job quiet transition watched.
  destruct fuel as [|[|[|[|fuel]]]]; try lia.
  pose (st0 := record [ClientOpened (api_endpoint self)] st).
  pose (st1 := advance 0 1 0
                 (record (submission_events self spec repo (PyStr.join " " cmd)
                                            w st0 created
                          ++ started_events task_status repo w st0)
                         (advance (names_used task_status) 0 0 st0))).
  assert (Hnot : forall i a, (1 <= i <= 4)%nat ->
            a = time_time w (i + time_calls st) ->
            timed_out (Some (maximum_run_time self))
                      (a - time_time w (time_calls st)) = false).
  { intros i a Hi ->. apply timed_out_false. apply Hclock. exact Hi. }
  assert (Hwatch :
    exists st4,
      submit_and_watch (S (S (S (S fuel)))) self spec task_status w st0 = (Ret p4, st4)
      /\ get_calls st4 = (4 + get_calls st)%nat
      /\ trace st4 =
           (trace st ++ [ClientOpened (api_endpoint self)]
            ++ submission_events self spec repo (PyStr.join " " cmd) w st created
            ++ started_events task_status repo w st
            ++ watched)%list).
  { rewrite (submit_and_watch_ok _ _ _ _ _ _ w st0 _ Hrepo Hcmd Hcreate).
    unfold _watch_job_run. rewrite (bind_Ret _ _ _ _ _ _ (time_eq w _)).
    fold st1.
    rewrite (watch_loop_continue _ _ repo _ _ _ _ _ _ _ w st1 p1);
      [|exact Hrepo|exact Hiv|reflexivity|exact Hp1
       |apply (Hnot 1%nat); [lia|reflexivity]].
    polled_step polled_unchanged.
    rewrite (watch_loop_continue _ _ repo _ _ _ _ _ _ _ w _ p2);
      [|exact Hrepo|exact Hiv|rewrite Hs1; reflexivity|exact Hp2
       |apply (Hnot 2%nat); [lia|reflexivity]].
    polled_step polled_unchanged.
    rewrite (watch_loop_continue _ _ repo _ _ _ _ _ _ _ w _ p3);
      [|exact Hrepo|exact Hiv|rewrite Hs2; reflexivity|exact Hp3
       |apply (Hnot 3%nat); [lia|reflexivity]].
    polled_step polled_changed.
    rewrite (watch_loop_continue _ _ repo _ _ _ _ _ _ _ w _ p4);
      [|exact Hrepo|exact Hiv|rewrite Hs3; reflexivity|exact Hp4
       |apply (Hnot 4%nat); [lia|reflexivity]].
    polled_step polled_changed.
    rewrite watch_loop_done by (rewrite Hs4; reflexivity).
    eexists. split; [reflexivity|]. split; [reflexivity|].
    rewrite Hs3, Hs4.
    unfold watched, quiet, transition, iteration_events, nth_name.
    destruct task_status; simpl; rewrite <- ?app_assoc; simpl;
      rewrite <- ?app_assoc; reflexivity. }
  destruct Hwatch as [st4 [Hrun [Hcalls Htrace]]].
  exists (record [ClientClosed] st4).
  split; [|split; [exact Hcalls|split; [|split; reflexivity]]].
  - unfold run, lift. rewrite Hspec. unfold bind at 1.
    rewrite (bind_Ret _ _ _ _ _ _ (with_client_eq _ _ w st _ _ Hopen Hrun)).
    unfold interpret_final. rewrite Herr, Hs4. reflexivity.
  - unfold record. simpl. rewrite Htrace. rewrite <- !app_assoc. reflexivity.
Qed.

(** *** The watch loop: how it can end *)



(** *** What a returning watch returns, and what it adds to the trace *)

Lemma watch_loop_returns_a_poll self repo job until timeout w :
  nth_error (PyStr.split "/" (image self)) 2 = Some repo ->
  forall fuel t0 s0 ls jr st final st',
    (forall r, jr = Some r ->
       s0 = state r /\ exists k, get_custom_job w k job = inr r) ->
    watch_loop fuel self job until timeout t0 s0 ls jr w st = (Ret final, st') ->
    JobStateOps.mem (state final) until = true
    /\ exists k, get_custom_job w k job = inr final.
Proof.
  intros Hrepo.
  induction fuel as [|fuel IH]; intros t0 s0 ls jr st final st' Hinv Hrun.
  - simpl in Hrun. destruct (JobStateOps.mem s0 until) eqn:Hmem; [|discriminate Hrun].
    destruct jr as [r|]; [|discriminate Hrun].
    injection Hrun as <- _. destruct (Hinv r eq_refl) as [-> Hk].
    split; [exact Hmem|exact Hk].
  - destruct (JobStateOps.mem s0 until) eqn:Hmem.
    + cbn [watch_loop] in Hrun. rewrite Hmem in Hrun.
      destruct jr as [r|]; [|discriminate Hrun].
      injection Hrun as <- _. destruct (Hinv r eq_refl) as [-> Hk].
      split; [exact Hmem|exact Hk].
    + destruct (get_custom_job w (get_calls st) job) as [e|r] eqn:Hr.
      * rewrite (watch_loop_poll_raises _ _ _ _ _ _ _ _ _ _ _ _ Hmem Hr) in Hrun.
        discriminate Hrun.
      * rewrite (watch_loop_iteration _ _ _ _ _ _ _ _ _ _ _ _ _ Hrepo Hmem Hr) in Hrun.
        cbv zeta in Hrun.
        destruct (timed_out timeout _); [discriminate Hrun|].
        destruct (_ <? 0)%Z; [discriminate Hrun|].
        apply (IH _ _ _ _ _ _ _) in Hrun; [exact Hrun|].
        intros r' Hr'. injection Hr' as <-. split; [reflexivity|].
        exists (get_calls st). exact Hr.
Qed.

Lemma watch_returns_a_poll fuel self repo job current until timeout w st final st' :
  nth_error (PyStr.split "/" (image self)) 2 = Some repo ->
  _watch_job_run fuel self job current until timeout w st = (Ret final, st') ->
  JobStateOps.mem (state final) until = true
  /\ exists k, get_custom_job w k job = inr final.
Proof.
  intros Hrepo Hrun. unfold _watch_job_run in Hrun.
  rewrite (bind_Ret _ _ _ _ _ _ (time_eq w st)) in Hrun.
  apply (watch_loop_returns_a_poll _ _ _ _ _ _ Hrepo _ _ _ _ _ _ _ _) in Hrun;
    [exact Hrun|].
  intros r Hr. discriminate Hr.
Qed.

Lemma polled_trace self repo w job r ls st :
  exists l,
    trace (polled self repo w job r ls st) = (trace st ++ [GetCustomJob job; l])%list
    /\ is_watch_event l = true.
Proof.
  unfold polled. destruct (JobStateOps.eqb (state r) ls); eexists; simpl;
    rewrite <- app_assoc; split; reflexivity.
Qed.

Lemma watch_loop_trace self repo job until timeout w :
  nth_error (PyStr.split "/" (image self)) 2 = Some repo ->
  forall fuel t0 s0 ls jr st,
    exists rest,
      trace (snd (watch_loop fuel self job until timeout t0 s0 ls jr w st)) =
        (trace st ++ rest)%list
      /\ forallb is_watch_event rest = true.
Proof.
  intros Hrepo.
  assert (Hstop : forall fuel t0 s0 ls jr st,
            JobStateOps.mem s0 until = true ->
            snd (watch_loop fuel self job until timeout t0 s0 ls jr w st) = st).
  { intros fuel t0 s0 ls jr st Hmem.
    destruct fuel; simpl; rewrite Hmem; destruct jr; reflexivity. }
  induction fuel as [|fuel IH]; intros t0 s0 ls jr st.
  - destruct (JobStateOps.mem s0 until) eqn:Hmem.
    + rewrite (Hstop _ _ _ _ _ _ Hmem). exists []. rewrite app_nil_r. split; reflexivity.
    + simpl. rewrite Hmem. exists []. rewrite app_nil_r. split; reflexivity.
  - destruct (JobStateOps.mem s0 until) eqn:Hmem.
    + rewrite (Hstop _ _ _ _ _ _ Hmem). exists []. rewrite app_nil_r. split; reflexivity.
    + destruct (get_custom_job w (get_calls st) job) as [e|r] eqn:Hr.
      * rewrite (watch_loop_poll_raises _ _ _ _ _ _ _ _ _ _ _ _ Hmem Hr).
        exists [GetCustomJob job]. split; reflexivity.
      * rewrite (watch_loop_iteration _ _ _ _ _ _ _ _ _ _ _ _ _ Hrepo Hmem Hr).
        cbv zeta.
        destruct (polled_trace self repo w job r ls st) as [l [Hl Hw]].
        destruct (timed_out timeout _).
        { exists [GetCustomJob job; l]. split; [exact Hl|].
          simpl. rewrite Hw. reflexivity. }
        destruct (_ <? 0)%Z.
        { exists [GetCustomJob job; l]. split; [exact Hl|].
          simpl. rewrite Hw. reflexivity. }
        destruct (IH t0 (state r) (seen r ls) (Some r)
                     (record [Sleep (job_watch_poll_interval self)]
                             (polled self repo w job r ls st)))
          as [rest [Hrest Hall]].
        exists ([GetCustomJob job; l; Sleep (job_watch_poll_interval self)] ++ rest)%list.
        split.
        -- rewrite Hrest. unfold record. cbn [trace]. rewrite Hl.
           rewrite <- !app_assoc. reflexivity.
        -- simpl. rewrite Hw. exact Hall.
Qed.

Lemma watch_trace fuel self repo job current until timeout w st :
  nth_error (PyStr.split "/" (image self)) 2 = Some repo ->
  exists rest,
    trace (snd (_watch_job_run fuel self job current until timeout w st)) =
      (trace st ++ rest)%list
    /\ forallb is_watch_event rest = true.
Proof.
  intros Hrepo. unfold _watch_job_run.
  rewrite (bind_Ret _ _ _ _ _ _ (time_eq w st)).
  exact (watch_loop_trace _ _ _ _ _ _ Hrepo fuel _ JOB_STATE_UNSPECIFIED current
           None (advance 0 1 0 st)).
Qed.

(** *** Inverting a computation that returned *)

Lemma bind_inv_Ret {A B} (m : M A) (k : A -> M B) w st b st' :
  bind m k w st = (Ret b, st') ->
  exists a st1, m w st = (Ret a, st1) /\ k a w st1 = (Ret b, st').
Proof.
  unfold bind. destruct (m w st) as [[a|e|] st1]; intros Hk;
    [|discriminate Hk|discriminate Hk].
  exists a, st1. split; [reflexivity|exact Hk].
Qed.

Lemma with_client_inv_Ret {A} ep (body : M A) w st a st' :
  with_client ep body w st = (Ret a, st') ->
  get_job_service_client w ep = None
  /\ exists st1,
       body w (record [ClientOpened ep] st) = (Ret a, st1)
       /\ st' = record [ClientClosed] st1.
Proof.
  unfold with_client. destruct (get_job_service_client w ep); [discriminate|].
  rewrite (bind_Ret _ _ _ _ _ _ (emit_eq _ w st)).
  destruct (body w (record [ClientOpened ep] st)) as [[r|e|] st1]; intros E;
    [|discriminate E|discriminate E].
  injection E as -> <-. split; [reflexivity|].
  exists st1. split; reflexivity.
Qed.

Lemma create_and_begin_inv_Ret self spec w st created st' :
  _create_and_begin_job self spec w st = (Ret created, st') ->
  exists repo, nth_error (PyStr.split "/" (image self)) 2 = Some repo.
Proof.
  intros Hrun. destruct (nth_error (PyStr.split "/" (image self)) 2) as [repo|] eqn:E.
  - exists repo. reflexivity.
  - unfold _create_and_begin_job in Hrun.
    assert (Hname : job_name self w st =
              (Raise (ValueError
                 ("The provided image must be from either Google Container Registry "
                  ++ "or Google Artifact Registry")), st)).
    { unfold job_name. rewrite E. reflexivity. }
    rewrite (bind_Raise _ _ _ _ _ _ Hname) in Hrun. discriminate Hrun.
Qed.

Lemma submit_and_watch_inv_Ret fuel self spec task_status w st final st' :
  submit_and_watch fuel self spec task_status w st = (Ret final, st') ->
  In (state final) terminal_states
  /\ exists k job, get_custom_job w k job = inr final.
Proof.
  intros Hrun. unfold submit_and_watch in Hrun.
  apply bind_inv_Ret in Hrun. destruct Hrun as [created [st1 [Hcreate Hrun]]].
  destruct (create_and_begin_inv_Ret _ _ _ _ _ _ Hcreate) as [repo Hrepo].
  apply bind_inv_Ret in Hrun. destruct Hrun as [u [st2 [_ Hrun]]].
  destruct (watch_returns_a_poll _ _ _ _ _ _ _ _ _ _ _ Hrepo Hrun) as [Hmem [k Hk]].
  split; [apply state_mem_In; exact Hmem|].
  exists k, (cj_name created). exact Hk.
Qed.

Lemma interpret_final_eq self final w st :
  interpret_final self final w st =
    if PyStr.truthy (error_message final)
    then (Raise (RuntimeError (_log_prefix self ++ ": " ++ error_message final)), st)
    else (Ret {| identifier := display_name final;
                 status_code :=
                   if JobStateOps.eqb (state final) JOB_STATE_SUCCEEDED
                   then 0%Z else 1%Z |}, st).
Proof. unfold interpret_final. destruct (PyStr.truthy _); reflexivity. Qed.

Lemma run_eq fuel self spec task_status w st final st' :
  _build_job_spec self = Ret spec ->
  with_client (api_endpoint self) (submit_and_watch fuel self spec task_status) w st =
    (Ret final, st') ->
  run fuel self task_status w st = interpret_final self final w st'.
Proof.
  intros Hspec Hwatch. unfold run, lift. rewrite Hspec. unfold bind at 1.
  rewrite (bind_Ret _ _ _ _ _ _ Hwatch). reflexivity.
Qed.

(** C2. A run whose watch ended on a snapshot in state FAILED: with a
    non-empty error message, [run] raises [RuntimeError] with a message that
    contains the error message; with an empty one, [run] does not raise and
    returns status code 1. *)
Theorem failed_run_raises_only_with_message
    fuel self spec task_status w st final st' :
  _build_job_spec self = Ret spec ->
  with_client (api_endpoint self) (submit_and_watch fuel self spec task_status) w st =
    (Ret final, st') ->
  state final = JOB_STATE_FAILED ->
  (error_message final <> EmptyString ->
   exists msg,
     run fuel self task_status w st = (Raise (RuntimeError msg), st')
     /\ PyStr.contains (error_message final) msg = true)
  /\ (error_message final = EmptyString ->
      run fuel self task_status w st =
        (Ret {| identifier := display_name final; status_code := 1 |}, st')).
Proof.
  intros Hspec Hwatch Hfailed.
  rewrite (run_eq _ _ _ _ _ _ _ _ Hspec Hwatch), interpret_final_eq. split.
  - intros Hmsg. apply truthy_true in Hmsg. rewrite Hmsg.
    eexists. split; [reflexivity|].
    rewrite <- str_append_assoc. apply contains_suffix.
  - intros Hmsg. rewrite Hmsg, Hfailed. reflexivity.
Qed.

(** C10. Whatever the final state, [run] raises when the final snapshot
    carries an error message. So a [run] that returns has watched until a
    poll answered with a snapshot in one of the four terminal states and
    with an empty error message; its identifier is the display name of that
    snapshot, its status code is 0 or 1, and it is 0 exactly when the state
    is SUCCEEDED. *)
Theorem run_returns_only_without_error_message fuel self task_status w st :
  (forall res st',
      run fuel self task_status w st = (Ret res, st') ->
      exists spec final,
        _build_job_spec self = Ret spec
        /\ with_client (api_endpoint self)
             (submit_and_watch fuel self spec task_status) w st = (Ret final, st')
        /\ (exists k job, get_custom_job w k job = inr final)
        /\ In (state final) terminal_states
        /\ error_message final = EmptyString
        /\ identifier res = display_name final
        /\ (status_code res = 0%Z \/ status_code res = 1%Z)
        /\ (status_code res = 0%Z <-> state final = JOB_STATE_SUCCEEDED))
  /\ (forall spec final st',
        _build_job_spec self = Ret spec ->
        with_client (api_endpoint self)
          (submit_and_watch fuel self spec task_status) w st = (Ret final, st') ->
        error_message final <> EmptyString ->
        run fuel self task_status w st =
          (Raise (RuntimeError (_log_prefix self ++ ": " ++ error_message final)),
           st')).
Proof.
  split.
  - intros res st' Hrun. unfold run in Hrun.
    apply bind_inv_Ret in Hrun. destruct Hrun as [spec [st0 [Hspec Hrun]]].
    unfold lift in Hspec. injection Hspec as Hspec <-.
    apply bind_inv_Ret in Hrun. destruct Hrun as [final [st1 [Hwatch Hrun]]].
    rewrite interpret_final_eq in Hrun.
    destruct (PyStr.truthy (error_message final)) eqn:Hmsg; [discriminate Hrun|].
    injection Hrun as <- <-.
    destruct (with_client_inv_Ret _ _ _ _ _ _ Hwatch) as [_ [st2 [Hbody _]]].
    destruct (submit_and_watch_inv_Ret _ _ _ _ _ _ _ _ Hbody) as [Hterminal Hpoll].
    exists spec, final. split; [exact Hspec|]. split; [exact Hwatch|].
    split; [exact Hpoll|]. split; [exact Hterminal|].
    split; [apply truthy_false; exact Hmsg|]. split; [reflexivity|]. simpl.
    destruct (JobStateOps.eqb (state final) JOB_STATE_SUCCEEDED) eqn:E.
    + apply state_eqb_eq in E. split; [left; reflexivity|]. split; intros _; auto.
    + split; [right; reflexivity|]. split; [discriminate|].
      intros Hs. apply state_eqb_eq in Hs. congruence.
  - intros spec final st' Hspec Hwatch Hmsg.
    rewrite (run_eq _ _ _ _ _ _ _ _ Hspec Hwatch), interpret_final_eq.
    apply truthy_true in Hmsg. rewrite Hmsg. reflexivity.
Qed.

(** C8. What the code does with the started-callback. After a successful
    submission, [run] calls it once, before the first poll; but the value it
    passes is a display name generated anew (the fourth one), while the job
    was submitted under the first one: the two differ as soon as [uuid4]
    gives different values. *)
Theorem started_callback_gets_a_fresh_name
    fuel self spec repo cmd ts w st created :
  nth_error (PyStr.split "/" (image self)) 2 = Some repo ->
  command self = Some cmd ->
  create_custom_job w (parent_resource self)
                    (new_CustomJob (nth_name repo w st 0) spec) = inr created ->
  let submitted :=
    submission_events self spec repo (PyStr.join " " cmd) w st created in
  exists watched,
    trace (snd (submit_and_watch fuel self spec (Some ts) w st)) =
      (trace st ++ submitted ++ [TaskStarted (nth_name repo w st 3)] ++ watched)%list
    /\ forallb is_watch_event watched = true
    /\ filter is_submission submitted =
         [CreateCustomJob (parent_resource self)
                          (new_CustomJob (nth_name repo w st 0) spec)]
    /\ (uuid4_hex w (3 + uuid_calls st) <> uuid4_hex w (uuid_calls st) ->
        nth_name repo w st 3 <> nth_name repo w st 0).
Proof.
  intros Hrepo Hcmd Hcreate submitted.
  rewrite (submit_and_watch_ok _ _ _ _ _ (Some ts) w st _ Hrepo Hcmd Hcreate).
  destruct (watch_trace fuel self repo (cj_name created) (state created)
              terminal_states (Some (maximum_run_time self)) w
              (record (submission_events self spec repo (PyStr.join " " cmd) w st
                                         created
                       ++ started_events (Some ts) repo w st)
                      (advance (names_used (Some ts)) 0 0 st)) Hrepo)
    as [watched [Htrace Hall]].
  exists watched. split; [|split; [exact Hall|split; [reflexivity|]]].
  - rewrite Htrace. unfold record, started_events. cbn [trace advance].
    rewrite <- !app_assoc. reflexivity.
  - intros Hfresh Hsame. apply Hfresh. unfold nth_name in Hsame.
    apply str_append_inj in Hsame. apply (str_append_inj "-") in Hsame.
    exact Hsame.
Qed.

End Properties.

(** ** The properties on concrete runs *)

(** The merge on the sample block: [KEY] is overridden, the other keys keep
    the value of the one mapping that has them. *)
Lemma build_job_spec_env_merge_witness :
  exists spec pool,
    @_build_job_spec Sample.externals Sample.good = Ret spec
    /\ worker_pool_specs spec = [pool]
    /\ env_entry (cs_env (container_spec pool)) "KEY" = Some "override"
    /\ env_entry (cs_env (container_spec pool)) "MODE" = Some "train"
    /\ env_entry (cs_env (container_spec pool)) "PREFECT_API_URL" = Some "http://api"
    /\ env_entry (cs_env (container_spec pool)) "HOME" = None.
Proof.
  assert (Hbase : PyDict.wf (@_base_environment Sample.externals)).
  { repeat constructor; simpl; intuition discriminate. }
  assert (Henv : PyDict.wf (env Sample.good)).
  { repeat constructor; simpl; intuition discriminate. }
  edestruct (@build_job_spec_env_merge Sample.externals Sample.good _ Hbase Henv
               eq_refl) as [pool [Hpool [_ Hentry]]].
  eexists. exists pool. split; [reflexivity|]. split; [exact Hpool|].
  rewrite !Hentry. repeat split.
Defined.

(** [preview] on the sample block. *)
Lemma preview_makes_no_remote_call_witness :
  @preview Sample.externals Sample.good Sample.never_terminal initial_state =
    (Ret "display_name: container-00", advance 1 0 0 initial_state)
  /\ trace (snd (@preview Sample.externals Sample.good Sample.never_terminal
                          initial_state)) = [].
Proof.
  edestruct (@preview_makes_no_remote_call Sample.externals Sample.good _
               "container" Sample.never_terminal initial_state eq_refl eq_refl)
    as [Hret [Htrace _]].
  split; [exact Hret|exact Htrace].
Defined.

(** [kill] against a client that accepts, one that answers that the job does
    not exist, and one that is unavailable. *)
Lemma kill_outcomes_witness :
  @kill Sample.externals Sample.good Sample.full_name 30
        (Sample.cancel_answers None) initial_state =
    (Ret tt,
     record [ClientOpened "us-east1-aiplatform.googleapis.com";
             CancelCustomJob Sample.full_name;
             Log INFO ("Requested to cancel " ++ Sample.full_name ++ "...");
             ClientClosed] initial_state)
  /\ fst (@kill Sample.externals Sample.good Sample.full_name 30
            (Sample.cancel_answers
               (Some (ServiceError "404 CustomJob 42 does not exist.")))
            initial_state) =
       Raise (InfrastructureNotFound
                ("Cannot stop Vertex AI job; the job name '" ++ Sample.full_name
                 ++ "' could not be found.")
                (ServiceError "404 CustomJob 42 does not exist."))
  /\ fst (@kill Sample.externals Sample.good Sample.full_name 30
            (Sample.cancel_answers (Some (ServiceError "503 Service Unavailable")))
            initial_state) =
       Raise (ServiceError "503 Service Unavailable").
Proof.
  split; [|split].
  - apply (proj1 (@kill_outcomes Sample.externals Sample.good Sample.full_name 30
                    (Sample.cancel_answers None) initial_state eq_refl)).
    reflexivity.
  - rewrite (proj1 (proj2 (@kill_outcomes Sample.externals Sample.good
                             Sample.full_name 30
                             (Sample.cancel_answers
                                (Some (ServiceError "404 CustomJob 42 does not exist.")))
                             initial_state eq_refl))
               (ServiceError "404 CustomJob 42 does not exist.")
               eq_refl eq_refl).
    reflexivity.
  - rewrite (proj2 (proj2 (@kill_outcomes Sample.externals Sample.good
                             Sample.full_name 30
                             (Sample.cancel_answers
                                (Some (ServiceError "503 Service Unavailable")))
                             initial_state eq_refl))
               (ServiceError "503 Service Unavailable") eq_refl eq_refl).
    reflexivity.
Defined.

(** With the two-segment image [gcr.io/job] the spec is built all the same:
    spec building does not fail on a short image. *)
Lemma short_image_spec_is_built :
  ~ (forall self : VertexAICustomTrainingJob,
        (length (PyStr.split "/" (image self)) < 3)%nat ->
        exists m, @_build_job_spec Sample.externals self = Raise (ValueError m)).
Proof.
  intros Hclaim. destruct (Hclaim Sample.bad_image) as [m Hm].
  - vm_compute. lia.
  - vm_compute in Hm. discriminate Hm.
Qed.

(** The two-segment image: no display name, and [run] fails before any remote
    call. *)
Lemma short_image_fails_without_remote_call_witness :
  (exists m,
     job_name Sample.bad_image Sample.never_terminal initial_state =
       (Raise (ValueError m), initial_state))
  /\ (exists m,
        @preview Sample.externals Sample.bad_image Sample.never_terminal
                 initial_state = (Raise (ValueError m), initial_state))
  /\ (exists m st',
        @run Sample.externals 5 Sample.bad_image None Sample.never_terminal
             initial_state = (Raise (ValueError m), st')
        /\ remote_calls st' = [])
  /\ (exists spec, @_build_job_spec Sample.externals Sample.bad_image = Ret spec).
Proof.
  assert (Hshort : (length (PyStr.split "/" (image Sample.bad_image)) < 3)%nat).
  { vm_compute. lia. }
  destruct (@short_image_fails_without_remote_call Sample.externals
              Sample.bad_image Hshort) as [Hname [Hpreview [Hrun Hbuild]]].
  split; [apply Hname|]. split; [apply Hpreview|]. split.
  - apply Hrun. reflexivity.
  - apply (Hbuild "runner@proj.iam.gserviceaccount.com"). reflexivity.
Defined.

(** C1. The code at the failing input: a client whose second poll fails once
    with 503, the next one being answered with SUCCEEDED. The failure of the
    poll is not swallowed: the watch raises it at once, well within the
    maximum run time, so the deadline is not the only way for the watch to end
    abnormally. *)
Lemma poll_failure_ends_the_watch :
  get_custom_job Sample.unavailable_once 1 Sample.full_name =
    inl (ServiceError "503 Service Unavailable")
  /\ get_custom_job Sample.unavailable_once 2 Sample.full_name =
       Sample.ok JOB_STATE_SUCCEEDED
  /\ fst (@_watch_job_run Sample.externals 10 Sample.good Sample.full_name
            JOB_STATE_QUEUED terminal_states
            (Some (maximum_run_time Sample.good))
            Sample.unavailable_once initial_state) =
       Raise (ServiceError "503 Service Unavailable")
  /\ ~ (forall (w : Env) (fuel : nat) (e : exn) (st' : State),
           @_watch_job_run Sample.externals fuel Sample.good Sample.full_name
             JOB_STATE_QUEUED terminal_states
             (Some (maximum_run_time Sample.good)) w initial_state = (Raise e, st') ->
           exists elapsed, e = @timeout_error Sample.externals elapsed).
Proof.
  split; [reflexivity|]. split; [reflexivity|]. split; [vm_compute; reflexivity|].
  intros Hclaim.
  destruct (Hclaim Sample.unavailable_once 10%nat
              (ServiceError "503 Service Unavailable")
              (snd (@_watch_job_run Sample.externals 10 Sample.good Sample.full_name
                      JOB_STATE_QUEUED terminal_states
                      (Some (maximum_run_time Sample.good))
                      Sample.unavailable_once initial_state)))
    as [elapsed Helapsed].
  - vm_compute. reflexivity.
  - unfold timeout_error in Helapsed. discriminate Helapsed.
Qed.


(** A job that fails with and without an error message. *)
Lemma failed_run_raises_only_with_message_witness :
  (exists msg,
     fst (@run Sample.externals 5 Sample.good None (Sample.failing "out of memory")
            initial_state) = Raise (RuntimeError msg)
     /\ PyStr.contains "out of memory" msg = true)
  /\ fst (@run Sample.externals 5 Sample.good None (Sample.failing EmptyString)
            initial_state) =
       Ret {| identifier := "container-00"; status_code := 1 |}.
Proof.
  eassert (Hspec : @_build_job_spec Sample.externals Sample.good = Ret _)
    by reflexivity.
  match type of Hspec with _ = Ret ?s => set (spec := s) in Hspec end.
  split.
  - assert (Hwatch :
      @with_client CustomJob (api_endpoint Sample.good)
        (@submit_and_watch Sample.externals 5 Sample.good spec None)
        (Sample.failing "out of memory") initial_state =
      (Ret (Sample.snapshot JOB_STATE_FAILED "out of memory"),
       snd (@with_client CustomJob (api_endpoint Sample.good)
              (@submit_and_watch Sample.externals 5 Sample.good spec None)
              (Sample.failing "out of memory") initial_state)))
      by (vm_compute; reflexivity).
    destruct (proj1 (@failed_run_raises_only_with_message Sample.externals 5
                       Sample.good spec None (Sample.failing "out of memory")
                       initial_state _ _ Hspec Hwatch eq_refl))
      as [msg [Hrun Hmsg]].
    + discriminate.
    + exists msg. rewrite Hrun. split; [reflexivity|exact Hmsg].
  - assert (Hwatch :
      @with_client CustomJob (api_endpoint Sample.good)
        (@submit_and_watch Sample.externals 5 Sample.good spec None)
        (Sample.failing EmptyString) initial_state =
      (Ret (Sample.snapshot JOB_STATE_FAILED EmptyString),
       snd (@with_client CustomJob (api_endpoint Sample.good)
              (@submit_and_watch Sample.externals 5 Sample.good spec None)
              (Sample.failing EmptyString) initial_state)))
      by (vm_compute; reflexivity).
    rewrite (proj2 (@failed_run_raises_only_with_message Sample.externals 5
                      Sample.good spec None (Sample.failing EmptyString)
                      initial_state _ _ Hspec Hwatch eq_refl) eq_refl).
    reflexivity.
Defined.

(** The scripted client of the scenario, with the sample block: besides the
    two records of the submission, the run logs two transitions. *)
Lemma run_queued_queued_running_succeeded_witness :
  exists st',
    @run Sample.externals 10 Sample.good (Some AnyioTaskStatus)
         Sample.queued_running_succeeded initial_state =
      (Ret {| identifier := "container-00"; status_code := 0 |}, st')
    /\ get_calls st' = 4%nat
    /\ length (filter (is_log INFO) (trace st')) = 4%nat
    /\ length (filter (is_log DEBUG) (trace st')) = 2%nat.
Proof.
  eassert (Hspec : @_build_job_spec Sample.externals Sample.good = Ret _)
    by reflexivity.
  match type of Hspec with _ = Ret ?s => set (spec := s) in Hspec end.
  destruct (@run_queued_queued_running_succeeded Sample.externals Sample.good spec
              "container" ["echo"; "hello world"] (Some AnyioTaskStatus)
              Sample.queued_running_succeeded initial_state
              (Sample.snapshot JOB_STATE_QUEUED EmptyString)
              (Sample.snapshot JOB_STATE_QUEUED EmptyString)
              (Sample.snapshot JOB_STATE_QUEUED EmptyString)
              (Sample.snapshot JOB_STATE_RUNNING EmptyString)
              (Sample.snapshot JOB_STATE_SUCCEEDED EmptyString)
              10%nat Hspec eq_refl eq_refl ltac:(simpl; lia) eq_refl eq_refl
              eq_refl eq_refl eq_refl eq_refl eq_refl eq_refl eq_refl eq_refl
              eq_refl eq_refl)
    as [st' [Hrun [Hcalls [Htrace _]]]].
  - intros i Hi. simpl. rewrite Nat.add_0_r. lia.
  - lia.
  - exists st'. split; [exact Hrun|]. split; [exact Hcalls|].
    rewrite Htrace. split; reflexivity.
Defined.

(** On the sample block, the job is submitted as [container-00] and the
    callback receives [container-03]. *)
Lemma started_callback_gets_a_fresh_name_witness :
  filter is_started
    (trace (snd (@run Sample.externals 10 Sample.good (Some AnyioTaskStatus)
                   Sample.queued_running_succeeded initial_state))) =
    [TaskStarted "container-03"]
  /\ map (fun e => match e with
                   | CreateCustomJob _ job => display_name job
                   | _ => EmptyString
                   end)
         (filter is_submission
            (trace (snd (@run Sample.externals 10 Sample.good
                           (Some AnyioTaskStatus)
                           Sample.queued_running_succeeded initial_state)))) =
       ["container-00"]
  /\ nth_name "container" Sample.queued_running_succeeded initial_state 3 <>
     nth_name "container" Sample.queued_running_succeeded initial_state 0.
Proof.
  split; [vm_compute; reflexivity|]. split; [vm_compute; reflexivity|].
  eassert (Hspec : @_build_job_spec Sample.externals Sample.good = Ret _)
    by reflexivity.
  match type of Hspec with _ = Ret ?s => set (spec := s) in Hspec end.
  destruct (@started_callback_gets_a_fresh_name Sample.externals 10 Sample.good spec
              "container" ["echo"; "hello world"] AnyioTaskStatus
              Sample.queued_running_succeeded initial_state
              (Sample.snapshot JOB_STATE_QUEUED EmptyString)
              eq_refl eq_refl eq_refl)
    as [watched [_ [_ [_ Hfresh]]]].
  apply Hfresh. vm_compute. discriminate.
Defined.

(** A failed job without error message is reported with status code 1; a
    succeeded job with an error message makes [run] raise. *)
Lemma run_returns_only_without_error_message_witness :
  (exists res final,
     fst (@run Sample.externals 5 Sample.good None (Sample.failing EmptyString)
            initial_state) = Ret res
     /\ state final = JOB_STATE_FAILED
     /\ error_message final = EmptyString
     /\ identifier res = display_name final
     /\ status_code res = 1%Z)
  /\ fst (@run Sample.externals 5 Sample.good None
            (Sample.scripted [] (inr (Sample.snapshot JOB_STATE_SUCCEEDED
                                        "quota exceeded"))
                             1000000 None)
            initial_state) =
       Raise (RuntimeError "VertexAICustomTrainingJob: quota exceeded").
Proof.
  split.
  - destruct (@run Sample.externals 5 Sample.good None (Sample.failing EmptyString)
                initial_state) as [[res|e|] st'] eqn:Hrun;
      [|vm_compute in Hrun; discriminate Hrun|vm_compute in Hrun; discriminate Hrun].
    destruct (proj1 (@run_returns_only_without_error_message Sample.externals 5
                       Sample.good None (Sample.failing EmptyString) initial_state)
                res st' Hrun)
      as [spec [final [_ [Hwatch [_ [_ [Hmsg [Hid [Hcode Hzero]]]]]]]]].
    assert (Hfinal : final = Sample.snapshot JOB_STATE_FAILED EmptyString).
    { vm_compute in Hwatch. injection Hwatch as Hfinal _.
      rewrite <- Hfinal. reflexivity. }
    exists res, final. split; [reflexivity|]. split; [rewrite Hfinal; reflexivity|].
    split; [exact Hmsg|]. split; [exact Hid|].
    destruct Hcode as [Hcode|Hcode]; [|exact Hcode].
    apply Hzero in Hcode. rewrite Hfinal in Hcode. discriminate Hcode.
  - eassert (Hspec : @_build_job_spec Sample.externals Sample.good = Ret _)
      by reflexivity.
    match type of Hspec with _ = Ret ?s => set (spec := s) in Hspec end.
    eassert (Hwatch :
      @with_client CustomJob (api_endpoint Sample.good)
        (@submit_and_watch Sample.externals 5 Sample.good spec None)
        (Sample.scripted [] (inr (Sample.snapshot JOB_STATE_SUCCEEDED
                                    "quota exceeded")) 1000000 None)
        initial_state =
      (Ret (Sample.snapshot JOB_STATE_SUCCEEDED "quota exceeded"), _))
      by (vm_compute; reflexivity).
    rewrite (proj2 (@run_returns_only_without_error_message Sample.externals 5
                      Sample.good None _ initial_state) _ _ _ Hspec Hwatch).
    + reflexivity.
    + discriminate.
Defined.

(** ** Further properties of the module *)

Section Further.

Context `{Externals}.

(** *** Display names *)

Lemma split_length (sep : ascii) (s : string) :
  length (PyStr.split sep s) = S (count_char sep s).
Proof.
  induction s as [|c s IH]; simpl; [reflexivity|].
  destruct (Ascii.eqb c sep); simpl; [rewrite IH; reflexivity|].
  destruct (PyStr.split sep s); simpl in *; [discriminate IH|exact IH].
Qed.

Lemma split_no_sep (sep : ascii) (s : string) :
  count_char sep s = 0%nat -> PyStr.split sep s = [s].
Proof.
  induction s as [|c s IH]; simpl; [reflexivity|].
  destruct (Ascii.eqb c sep); [discriminate|].
  intros Hs. rewrite (IH Hs). reflexivity.
Qed.

Lemma split_at_sep (sep : ascii) (a b : string) :
  count_char sep a = 0%nat ->
  PyStr.split sep (a ++ String sep b) = a :: PyStr.split sep b.
Proof.
  induction a as [|c a IH]; simpl.
  - rewrite Ascii.eqb_refl. reflexivity.
  - destruct (Ascii.eqb c sep); [discriminate|].
    intros Ha. rewrite (IH Ha). reflexivity.
Qed.

Lemma split_segments_no_sep (sep : ascii) (s : string) :
  Forall (fun seg => count_char sep seg = 0%nat) (PyStr.split sep s).
Proof.
  induction s as [|c s IH]; simpl.
  - repeat constructor.
  - destruct (Ascii.eqb c sep) eqn:E.
    + constructor; [reflexivity|exact IH].
    + destruct (PyStr.split sep s) as [|h t].
      * repeat constructor. simpl. rewrite E. reflexivity.
      * inversion IH as [|? ? Hh Ht]; subst. constructor; [|exact Ht].
        simpl. rewrite E. exact Hh.
Qed.

(** X1. The display name can be generated exactly when the image holds at
    least two slashes: with fewer, [job_name] raises [ValueError] and draws no
    uuid; with two or more, it returns some segment, free of slashes, followed
    by a dash and the next uuid. *)
Theorem job_name_needs_two_slashes self w st :
  ((count_char "/" (image self) < 2)%nat <->
   exists m, job_name self w st = (Raise (ValueError m), st))
  /\ ((2 <= count_char "/" (image self))%nat <->
      exists repo,
        count_char "/" repo = 0%nat
        /\ job_name self w st =
             (Ret (repo ++ "-" ++ uuid4_hex w (uuid_calls st)), advance 1 0 0 st)).
Proof.
  pose proof (split_length "/" (image self)) as Hlen.
  pose proof (split_segments_no_sep "/" (image self)) as Hsegs.
  unfold job_name.
  destruct (nth_error (PyStr.split "/" (image self)) 2) as [repo|] eqn:E.
  - assert (Hsome : nth_error (PyStr.split "/" (image self)) 2 <> None) by congruence.
    apply nth_error_Some in Hsome.
    assert (Hrepo : count_char "/" repo = 0%nat).
    { rewrite Forall_forall in Hsegs. apply Hsegs. apply (nth_error_In _ _ E). }
    split; split.
    + intros Hlt. lia.
    + intros [m Hm]. discriminate Hm.
    + intros _. exists repo. split; [exact Hrepo|reflexivity].
    + intros _. lia.
  - apply nth_error_None in E. split; split.
    + intros _. eexists. reflexivity.
    + intros _. lia.
    + intros Hge. lia.
    + intros [repo [_ Hrun]]. discriminate Hrun.
Qed.

(** X2. For an image of the form host/project/repo, optionally followed by
    a slash and anything, where host, project and repo hold no slash, the
    display name is repo, a dash and the next uuid: tags and digests stay in
    the name, deeper path segments do not. *)
Theorem job_name_takes_third_segment self host proj repo rest w st :
  count_char "/" host = 0%nat ->
  count_char "/" proj = 0%nat ->
  count_char "/" repo = 0%nat ->
  image self = host ++ "/" ++ proj ++ "/" ++ repo \/
  image self = host ++ "/" ++ proj ++ "/" ++ repo ++ "/" ++ rest ->
  job_name self w st =
    (Ret (repo ++ "-" ++ uuid4_hex w (uuid_calls st)), advance 1 0 0 st).
Proof.
  intros Hhost Hproj Hrepo Himage. apply job_name_ok.
  destruct Himage as [-> | ->].
  - change (host ++ "/" ++ proj ++ "/" ++ repo)
      with (host ++ String "/" (proj ++ String "/" repo)).
    rewrite (split_at_sep _ _ _ Hhost), (split_at_sep _ _ _ Hproj),
      (split_no_sep _ _ Hrepo).
    reflexivity.
  - change (host ++ "/" ++ proj ++ "/" ++ repo ++ "/" ++ rest)
      with (host ++ String "/" (proj ++ String "/" (repo ++ String "/" rest))).
    rewrite (split_at_sep _ _ _ Hhost), (split_at_sep _ _ _ Hproj),
      (split_at_sep _ _ _ Hrepo).
    reflexivity.
Qed.

(** X3. Two accesses to [job_name] on the same block give two names with
    the same repo segment and the next two uuids: the names are equal only if
    [uuid4] gave the same value twice. *)
Theorem job_name_is_drawn_anew self repo w st :
  nth_error (PyStr.split "/" (image self)) 2 = Some repo ->
  job_name_twice self w st =
    (Ret (nth_name repo w st 0, nth_name repo w st 1), advance 2 0 0 st)
  /\ (nth_name repo w st 0 = nth_name repo w st 1 <->
      uuid4_hex w (uuid_calls st) = uuid4_hex w (S (uuid_calls st))).
Proof.
  intros Hrepo. split.
  - unfold job_name_twice.
    rewrite (bind_Ret _ _ _ _ _ _ (job_name_ok _ _ w st Hrepo)).
    rewrite (bind_Ret _ _ _ _ _ _ (job_name_ok _ _ w _ Hrepo)).
    reflexivity.
  - unfold nth_name. simpl. split.
    + intros E. apply str_append_inj in E. apply (str_append_inj "-") in E. exact E.
    + intros ->. reflexivity.
Qed.

(** *** The job spec *)

(** X4. The service account of the built spec: the one given explicitly on
    the block when it is a non-empty string; otherwise (none, or the empty
    string) the one of the credentials; and when the credentials have none
    either, building the spec fails with [ValueError]. *)
Theorem build_job_spec_service_account self :
  (forall s,
      service_account self = Some s -> s <> EmptyString ->
      exists spec, _build_job_spec self = Ret spec /\ js_service_account spec = s)
  /\ (forall e,
        service_account self = None \/ service_account self = Some EmptyString ->
        _service_account_email (gcp_credentials self) = Some e ->
        exists spec, _build_job_spec self = Ret spec /\ js_service_account spec = e)
  /\ (service_account self = None \/ service_account self = Some EmptyString ->
      _service_account_email (gcp_credentials self) = None ->
      exists m, _build_job_spec self = Raise (ValueError m)).
Proof.
  pose proof (build_job_spec_cases self) as Hcases. unfold py_or in Hcases.
  split; [|split].
  - intros s Hs Hne. rewrite Hs in Hcases.
    apply truthy_true in Hne. rewrite Hne in Hcases. exact Hcases.
  - intros e Hexplicit Hemail.
    destruct Hexplicit as [Hs|Hs]; rewrite Hs in Hcases; simpl in Hcases;
      rewrite Hemail in Hcases; exact Hcases.
  - intros Hexplicit Hemail.
    destruct Hexplicit as [Hs|Hs]; rewrite Hs in Hcases; simpl in Hcases;
      rewrite Hemail in Hcases; exact Hcases.
Qed.

(** X5. Without a service account, [run] and [preview] fail as spec building
    does, and leave everything as it was: no client is asked for, no uuid is
    drawn, nothing is logged. *)
Theorem no_service_account_fails_first self e :
  _build_job_spec self = Raise e ->
  forall fuel task_status w st,
    run fuel self task_status w st = (Raise e, st)
    /\ preview self w st = (Raise e, st).
Proof.
  intros Hspec fuel task_status w st.
  unfold run, preview, lift. rewrite Hspec. split; reflexivity.
Qed.

Lemma has_key_set d k v k' :
  has_key (PyDict.set d k v) k' = (has_key d k' || String.eqb k k')%bool.
Proof.
  unfold has_key. destruct (String.eqb k k') eqn:E.
  - apply String.eqb_eq in E. subst k'. rewrite DictFacts.get_set_same.
    rewrite orb_true_r. reflexivity.
  - rewrite DictFacts.get_set_other.
    + rewrite orb_false_r. reflexivity.
    + intros ->. rewrite String.eqb_refl in E. discriminate E.
Qed.

Lemma keys_merge (a b : PyDict.dict) :
  PyDict.wf b ->
  PyDict.keys (PyDict.merge a b) =
    (PyDict.keys a ++ filter (fun k => negb (has_key a k)) (PyDict.keys b))%list.
Proof.
  unfold PyDict.merge, PyDict.wf. revert a.
  induction b as [|[k v] b IH]; simpl; intros a Hb.
  - rewrite app_nil_r. reflexivity.
  - inversion Hb as [|? ? Hnotin Hb']; subst.
    rewrite (IH _ Hb'). rewrite DictFacts.keys_set.
    assert (Hfilter :
      filter (fun k0 => negb (has_key (PyDict.set a k v) k0)) (PyDict.keys b) =
      filter (fun k0 => negb (has_key a k0)) (PyDict.keys b)).
    { apply filter_ext_in. intros k0 Hk0. rewrite has_key_set.
      destruct (String.eqb k k0) eqn:E.
      - apply String.eqb_eq in E. subst k0. contradiction.
      - rewrite orb_false_r. reflexivity. }
    rewrite Hfilter. unfold has_key.
    destruct (PyDict.get a k); simpl; [reflexivity|].
    rewrite <- app_assoc. reflexivity.
Qed.

(** X6. The names of the environment of the built spec, in order: those of
    the base environment, in its order, then the names that only the block's
    [env] has, in the order of [env]. An overridden name keeps the place it
    has in the base environment. *)
Theorem build_job_spec_env_order self spec :
  PyDict.wf (env self) ->
  _build_job_spec self = Ret spec ->
  exists pool,
    worker_pool_specs spec = [pool]
    /\ map ev_name (cs_env (container_spec pool)) =
         (PyDict.keys _base_environment
          ++ filter (fun k => negb (has_key _base_environment k))
                    (PyDict.keys (env self)))%list.
Proof.
  intros Henv. unfold _build_job_spec.
  destruct (py_or _ _); [|discriminate].
  intros E. injection E as <-. eexists. split; [reflexivity|]. simpl.
  rewrite env_list_names. apply keys_merge. exact Henv.
Qed.

(** *** What [run] leaves in the trace, on every way out *)

Lemma count_events_app p a b :
  count_events p (a ++ b) = (count_events p a + count_events p b)%nat.
Proof. unfold count_events. rewrite filter_app, length_app. reflexivity. Qed.

Lemma count_events_cons p e evs :
  count_events p (e :: evs) = ((if p e then 1 else 0) + count_events p evs)%nat.
Proof. unfold count_events. simpl. destruct (p e); reflexivity. Qed.

Lemma count_events_watch p evs :
  (forall e, is_watch_event e = true -> p e = false) ->
  forallb is_watch_event evs = true ->
  count_events p evs = 0%nat.
Proof.
  intros Hp. unfold count_events. induction evs as [|e evs IH]; simpl; [reflexivity|].
  intros Hall. apply andb_true_iff in Hall. destruct Hall as [He Hall].
  rewrite (Hp e He). apply IH. exact Hall.
Qed.

Lemma create_and_begin_refused_eq self spec repo cmd w st e :
  nth_error (PyStr.split "/" (image self)) 2 = Some repo ->
  command self = Some cmd ->
  create_custom_job w (parent_resource self)
                    (new_CustomJob (nth_name repo w st 0) spec) = inl e ->
  _create_and_begin_job self spec w st =
    (Raise e,
     record [Log INFO
               (_log_prefix self ++ ": Job " ++ repr (nth_name repo w st 1)
                ++ " starting to run " ++ "the command "
                ++ repr (PyStr.join " " cmd) ++ " in region "
                ++ repr (region self) ++ " using image " ++ repr (image self));
             CreateCustomJob (parent_resource self)
                             (new_CustomJob (nth_name repo w st 0) spec)]
            (advance 2 0 0 st)).
Proof.
  intros Hrepo Hcmd Hcreate. unfold _create_and_begin_job.
  rewrite (bind_Ret _ _ _ _ _ _ (job_name_ok _ _ w st Hrepo)).
  rewrite (bind_Ret _ _ _ _ _ _ (job_name_ok _ _ w _ Hrepo)).
  unfold join_command. rewrite Hcmd.
  unfold bind at 1. unfold ret at 1.
  unfold bind at 1. unfold logger_info at 1. rewrite emit_eq.
  unfold bind at 1. unfold client_create_custom_job.
  rewrite (bind_Ret _ _ _ _ _ _ (emit_eq _ w _)).
  change ("projects/" ++ str_optional (project (gcp_credentials self))
          ++ "/locations/" ++ region self) with (parent_resource self).
  change (repo ++ "-" ++ uuid4_hex w (uuid_calls st)) with (nth_name repo w st 0).
  rewrite Hcreate. f_equal. apply state_eq; try reflexivity.
  unfold record, advance, nth_name. simpl. rewrite <- app_assoc. reflexivity.
Qed.

Lemma create_and_begin_no_command self spec repo w st :
  nth_error (PyStr.split "/" (image self)) 2 = Some repo ->
  command self = None ->
  _create_and_begin_job self spec w st =
    (Raise (TypeError "can only join an iterable"), advance 2 0 0 st).
Proof.
  intros Hrepo Hcmd. unfold _create_and_begin_job.
  rewrite (bind_Ret _ _ _ _ _ _ (job_name_ok _ _ w st Hrepo)).
  rewrite (bind_Ret _ _ _ _ _ _ (job_name_ok _ _ w _ Hrepo)).
  unfold join_command. rewrite Hcmd. reflexivity.
Qed.

(** The events of the body of the [with] block of [run], whatever its
    outcome. *)
Lemma submit_and_watch_events fuel self spec task_status w st :
  exists evs,
    trace (snd (submit_and_watch fuel self spec task_status w st)) =
      (trace st ++ evs)%list
    /\ count_events is_client_event evs = 0%nat
    /\ (count_events is_submission evs <= 1)%nat
    /\ (count_events is_started evs <= count_events is_submission evs)%nat
    /\ (task_status = None -> count_events is_started evs = 0%nat).
Proof.
  destruct (nth_error (PyStr.split "/" (image self)) 2) as [repo|] eqn:Hrepo.
  - destruct (command self) as [cmd|] eqn:Hcmd.
    + destruct (create_custom_job w (parent_resource self)
                  (new_CustomJob (nth_name repo w st 0) spec)) as [e|created]
        eqn:Hcreate.
      * unfold submit_and_watch.
        rewrite (bind_Raise _ _ _ _ _ _
                   (create_and_begin_refused_eq _ _ _ _ w st _ Hrepo Hcmd Hcreate)).
        eexists. split; [reflexivity|]. repeat split; unfold count_events; simpl; lia.
      * rewrite (submit_and_watch_ok _ _ _ _ _ _ w st _ Hrepo Hcmd Hcreate).
        match goal with
        | |- context [_watch_job_run ?f ?s ?j ?c ?u ?t w ?s0] =>
            destruct (watch_trace f s repo j c u t w s0 Hrepo)
              as [watched [Htrace Hall]]
        end.
        eexists. split.
        { rewrite Htrace. unfold record. cbn [trace advance].
          rewrite <- app_assoc. reflexivity. }
        rewrite !count_events_app.
        rewrite !(count_events_watch _ watched) by
          (first [exact Hall | intros [] He; try reflexivity; discriminate He]).
        destruct task_status; repeat split; unfold count_events; simpl; try lia.
        discriminate.
    + unfold submit_and_watch.
      rewrite (bind_Raise _ _ _ _ _ _
                 (create_and_begin_no_command _ spec _ w st Hrepo Hcmd)).
      exists []. rewrite app_nil_r. repeat split; unfold count_events; simpl; lia.
  - unfold submit_and_watch, _create_and_begin_job.
    assert (Hname : job_name self w st =
              (Raise (ValueError
                 ("The provided image must be from either Google Container Registry "
                  ++ "or Google Artifact Registry")), st)).
    { unfold job_name. rewrite Hrepo. reflexivity. }
    rewrite (bind_Raise _ _ _ _ _ _ (bind_Raise _ _ _ _ _ _ Hname)).
    exists []. rewrite app_nil_r. repeat split; unfold count_events; simpl; lia.
Qed.

Lemma run_state fuel self spec task_status w st :
  _build_job_spec self = Ret spec ->
  snd (run fuel self task_status w st) =
    snd (with_client (api_endpoint self)
           (submit_and_watch fuel self spec task_status) w st).
Proof.
  intros Hspec. unfold run, lift. rewrite Hspec. unfold bind at 1. unfold bind.
  destruct (with_client _ _ w st) as [[final|e|] st1]; [|reflexivity|reflexivity].
  rewrite interpret_final_eq. destruct (PyStr.truthy _); reflexivity.
Qed.

Lemma with_client_state {A} ep (body : M A) w st :
  get_job_service_client w ep = None ->
  snd (with_client ep body w st) =
    leaving (fst (body w (record [ClientOpened ep] st)))
            (snd (body w (record [ClientOpened ep] st)))
  /\ closing (fst (with_client ep body w st)) =
     closing (fst (body w (record [ClientOpened ep] st))).
Proof.
  intros Hopen.
  destruct (body w (record [ClientOpened ep] st)) as [r st1] eqn:Hbody.
  rewrite (with_client_eq _ _ _ _ _ _ Hopen Hbody). split; reflexivity.
Qed.

Lemma trace_leaving {A} (r : outcome A) st :
  trace (leaving r st) = (trace st ++ closing r)%list.
Proof. destruct r; simpl; try reflexivity. rewrite app_nil_r. reflexivity. Qed.

Lemma run_closing fuel self spec task_status w st :
  _build_job_spec self = Ret spec ->
  closing (fst (run fuel self task_status w st)) =
    closing (fst (with_client (api_endpoint self)
                    (submit_and_watch fuel self spec task_status) w st)).
Proof.
  intros Hspec. unfold run, lift. rewrite Hspec. unfold bind at 1. unfold bind.
  destruct (with_client _ _ w st) as [[final|e|] st1]; [|reflexivity|reflexivity].
  rewrite interpret_final_eq. destruct (PyStr.truthy _); reflexivity.
Qed.

Lemma closing_no_call {A} (r : outcome A) p :
  p ClientClosed = false -> count_events p (closing r) = 0%nat.
Proof. intros Hp. destruct r; unfold count_events; simpl; rewrite ?Hp; reflexivity. Qed.

(** X7. The client of [run] is released on every way out, and only then.
    Once the spec is built and the client obtained, what [run] adds to the
    trace starts with the opening of the client, holds no other opening or
    closing, and ends with the closing of the client whenever [run] returns
    or raises (the submission or a poll raises, the watch times out, the job
    ends). While the watch is still polling (the fuel is out), the client is
    open and has not been closed. *)
Theorem run_closes_its_client fuel self spec task_status w st :
  _build_job_spec self = Ret spec ->
  get_job_service_client w (api_endpoint self) = None ->
  exists evs,
    count_events is_client_event evs = 0%nat
    /\ trace (snd (run fuel self task_status w st)) =
         (trace st ++ [ClientOpened (api_endpoint self)] ++ evs
          ++ match fst (run fuel self task_status w st) with
             | OutOfFuel => []
             | _ => [ClientClosed]
             end)%list.
Proof.
  intros Hspec Hopen.
  change (match fst (run fuel self task_status w st) with
          | OutOfFuel => []
          | _ => [ClientClosed]
          end) with (closing (fst (run fuel self task_status w st))).
  rewrite (run_state _ _ _ _ _ _ Hspec), (run_closing _ _ _ _ _ _ Hspec).
  destruct (with_client_state (api_endpoint self)
              (submit_and_watch fuel self spec task_status) w st Hopen)
    as [Hstate Hclosing].
  rewrite Hstate, Hclosing, trace_leaving.
  destruct (submit_and_watch_events fuel self spec task_status w
              (record [ClientOpened (api_endpoint self)] st))
    as [evs [Htrace [Hclient _]]].
  exists evs. split; [exact Hclient|].
  rewrite Htrace. unfold record. cbn [trace].
  rewrite <- !app_assoc. reflexivity.
Qed.

(** X8. One call of [run] submits at most one job, whatever happens (there
    is no retry), and calls the started-callback at most once, never before
    the submission call, and never when no [task_status] is given. *)
Theorem run_submits_at_most_once fuel self task_status w st :
  exists evs,
    trace (snd (run fuel self task_status w st)) = (trace st ++ evs)%list
    /\ (count_events is_submission evs <= 1)%nat
    /\ (count_events is_started evs <= count_events is_submission evs)%nat
    /\ (task_status = None -> count_events is_started evs = 0%nat).
Proof.
  destruct (_build_job_spec self) as [spec|e|] eqn:Hspec.
  - rewrite (run_state _ _ _ _ _ _ Hspec).
    destruct (get_job_service_client w (api_endpoint self)) as [e|] eqn:Hopen.
    + rewrite (with_client_refused _ _ _ _ _ Hopen).
      exists []. rewrite app_nil_r. repeat split; unfold count_events; simpl; lia.
    + rewrite (proj1 (with_client_state _ _ _ _ Hopen)), trace_leaving.
      destruct (submit_and_watch_events fuel self spec task_status w
                  (record [ClientOpened (api_endpoint self)] st))
        as [evs [Htrace [_ [Hsub [Hstarted Hnone]]]]].
      exists ([ClientOpened (api_endpoint self)] ++ evs
              ++ closing (fst (submit_and_watch fuel self spec task_status w
                                 (record [ClientOpened (api_endpoint self)] st))))%list.
      split.
      * rewrite Htrace. unfold record. cbn [trace].
        rewrite <- !app_assoc. reflexivity.
      * rewrite !count_events_app.
        rewrite !closing_no_call by reflexivity.
        rewrite !count_events_cons. cbn [is_submission is_started count_events
                                         filter length].
        repeat split; try lia.
        intros Hts. rewrite (Hnone Hts). reflexivity.
  - unfold run, lift. rewrite Hspec.
    exists []. rewrite app_nil_r. repeat split; unfold count_events; simpl; lia.
  - unfold run, lift. rewrite Hspec.
    exists []. rewrite app_nil_r. repeat split; unfold count_events; simpl; lia.
Qed.

(** X9. A refused submission: when the create call raises, [run] raises the
    same exception, after one log record and that single call; the job is
    never polled, the started-callback is not called even when one is given,
    and the client is closed. *)
Theorem refused_submission_goes_through
    fuel self spec repo cmd task_status w st e :
  _build_job_spec self = Ret spec ->
  nth_error (PyStr.split "/" (image self)) 2 = Some repo ->
  command self = Some cmd ->
  get_job_service_client w (api_endpoint self) = None ->
  create_custom_job w (parent_resource self)
                    (new_CustomJob (nth_name repo w st 0) spec) = inl e ->
  exists msg,
    run fuel self task_status w st =
      (Raise e,
       record [ClientOpened (api_endpoint self);
               Log INFO msg;
               CreateCustomJob (parent_resource self)
                               (new_CustomJob (nth_name repo w st 0) spec);
               ClientClosed]
              (advance 2 0 0 st)).
Proof.
  intros Hspec Hrepo Hcmd Hopen Hcreate. eexists.
  unfold run, lift. rewrite Hspec. unfold bind at 1.
  apply bind_Raise.
  erewrite with_client_eq; cycle 1.
  - exact Hopen.
  - unfold submit_and_watch. apply bind_Raise.
    apply (create_and_begin_refused_eq _ _ _ _ w
             (record [ClientOpened (api_endpoint self)] st) _ Hrepo Hcmd Hcreate).
  - f_equal. apply state_eq; try reflexivity.
    unfold record, advance. simpl. rewrite <- !app_assoc. reflexivity.
Qed.

(** X10. A block without command (the field is optional): [preview] renders
    the job, but [run] raises [TypeError] when it formats its first log
    record, after the client was obtained and before any remote call. *)
Theorem run_needs_a_command fuel self spec repo task_status w st :
  _build_job_spec self = Ret spec ->
  nth_error (PyStr.split "/" (image self)) 2 = Some repo ->
  command self = None ->
  get_job_service_client w (api_endpoint self) = None ->
  (exists msg,
     run fuel self task_status w st =
       (Raise (TypeError msg),
        record [ClientOpened (api_endpoint self); ClientClosed] (advance 2 0 0 st)))
  /\ remote_calls (snd (run fuel self task_status w st)) = remote_calls st
  /\ preview self w st =
       (Ret (str_CustomJob (new_CustomJob (nth_name repo w st 0) spec)),
        advance 1 0 0 st).
Proof.
  intros Hspec Hrepo Hcmd Hopen.
  assert (Hrun : run fuel self task_status w st =
    (Raise (TypeError "can only join an iterable"),
     record [ClientOpened (api_endpoint self); ClientClosed] (advance 2 0 0 st))).
  { unfold run, lift. rewrite Hspec. unfold bind at 1.
    apply bind_Raise.
    rewrite (with_client_eq _ _ w st (Raise (TypeError "can only join an iterable"))
               (advance 2 0 0 (record [ClientOpened (api_endpoint self)] st))).
    - f_equal. apply state_eq; try reflexivity.
      unfold record, advance. simpl. rewrite <- !app_assoc. reflexivity.
    - exact Hopen.
    - unfold submit_and_watch. apply bind_Raise.
      apply (create_and_begin_no_command _ _ _ w _ Hrepo Hcmd). }
  split; [eexists; exact Hrun|]. split.
  - rewrite Hrun. unfold remote_calls, record, advance. simpl.
    rewrite filter_app. simpl. apply app_nil_r.
  - unfold preview, lift. rewrite Hspec. unfold bind at 1.
    rewrite (bind_Ret _ _ _ _ _ _ (job_name_ok _ _ w st Hrepo)). reflexivity.
Qed.

(** *** The watch loop along a script of answers *)

Lemma seen_eq r ls : seen r ls = state r.
Proof.
  unfold seen. destruct (JobStateOps.eqb (state r) ls) eqn:E; [|reflexivity].
  apply state_eqb_eq in E. symmetry. exact E.
Qed.

Lemma last_cons {A} (a d : A) (l : list A) : last (a :: l) d = last l a.
Proof.
  revert a d. induction l as [|b l IH]; intros a d; [reflexivity|].
  change (last (a :: b :: l) d) with (last (b :: l) d).
  rewrite (IH b d), (IH b a). reflexivity.
Qed.

Lemma followed_app self repo w job a b ls st :
  followed self repo w job (a ++ b) ls st =
    followed self repo w job b (last (map state a) ls) (followed self repo w job a ls st).
Proof.
  revert ls st. induction a as [|r a IH]; intros ls st; [reflexivity|].
  simpl app. cbn [followed]. rewrite IH. cbn [map]. rewrite last_cons. reflexivity.
Qed.

Lemma followed_counters self repo w job ps ls st :
  get_calls (followed self repo w job ps ls st) = (length ps + get_calls st)%nat
  /\ time_calls (followed self repo w job ps ls st) = (length ps + time_calls st)%nat
  /\ uuid_calls (followed self repo w job ps ls st) =
       (transitions ls (map state ps) + uuid_calls st)%nat.
Proof.
  revert ls st. induction ps as [|r ps IH]; intros ls st; [repeat split|].
  cbn [followed]. destruct (IH (state r)
    (record [Sleep (job_watch_poll_interval self)] (polled self repo w job r ls st)))
    as [Hg [Ht Hu]].
  rewrite Hg, Ht, Hu. unfold record at 1 2 3. cbn [get_calls time_calls uuid_calls].
  destruct (polled_counters self repo w job r ls st) as [Hpg Hpt].
  rewrite Hpg, Hpt. cbn [map transitions length].
  split; [lia|]. split; [lia|].
  unfold polled. destruct (JobStateOps.eqb (state r) ls); simpl; lia.
Qed.

Lemma followed_trace self repo w job ps ls st :
  exists evs,
    trace (followed self repo w job ps ls st) = (trace st ++ evs)%list
    /\ forallb is_watch_event evs = true
    /\ count_events is_poll evs = length ps
    /\ count_events is_sleep evs = length ps
    /\ count_events (is_log INFO) evs = transitions ls (map state ps)
    /\ (count_events (is_log INFO) evs + count_events (is_log DEBUG) evs)%nat
       = length ps.
Proof.
  revert ls st. induction ps as [|r ps IH]; intros ls st.
  - exists []. rewrite app_nil_r. repeat split.
  - cbn [followed].
    destruct (IH (state r)
      (record [Sleep (job_watch_poll_interval self)] (polled self repo w job r ls st)))
      as [evs [Htrace [Hall [Hpoll [Hsleep [Hinfo Hlogs]]]]]].
    assert (Hpolled : exists l,
      trace (polled self repo w job r ls st) = (trace st ++ [GetCustomJob job; l])%list
      /\ is_watch_event l = true /\ is_poll l = false /\ is_sleep l = false
      /\ is_log INFO l = negb (JobStateOps.eqb (state r) ls)
      /\ is_log DEBUG l = JobStateOps.eqb (state r) ls).
    { unfold polled. destruct (JobStateOps.eqb (state r) ls); eexists; simpl;
        rewrite <- app_assoc; repeat split. }
    destruct Hpolled as [l [Hl [Hw [Hnp [Hns [Hli Hld]]]]]].
    exists (GetCustomJob job :: l :: Sleep (job_watch_poll_interval self) :: evs).
    split.
    { rewrite Htrace. unfold record. cbn [trace]. rewrite Hl.
      rewrite <- !app_assoc. reflexivity. }
    rewrite !count_events_cons. cbn [forallb is_watch_event is_poll is_sleep is_log].
    rewrite Hw, Hnp, Hns, Hli, Hld, Hall. cbn [map transitions length].
    destruct (JobStateOps.eqb (state r) ls); simpl; repeat split; lia.
Qed.

Lemma watch_loop_follows self repo job until timeout t0 w :
  nth_error (PyStr.split "/" (image self)) 2 = Some repo ->
  (0 <= job_watch_poll_interval self)%Z ->
  forall ps fuel s0 ls jr st,
    JobStateOps.mem s0 until = false ->
    (forall i r, nth_error ps i = Some r ->
       get_custom_job w (i + get_calls st) job = inr r) ->
    (forall r, In r ps -> JobStateOps.mem (state r) until = false) ->
    (forall i, (i < length ps)%nat ->
       timed_out timeout (time_time w (i + time_calls st) - t0) = false) ->
    watch_loop (length ps + fuel) self job until timeout t0 s0 ls jr w st =
      watch_loop fuel self job until timeout t0
        (last (map state ps) s0) (last (map state ps) ls) (last (map Some ps) jr) w
        (followed self repo w job ps ls st)
    /\ JobStateOps.mem (last (map state ps) s0) until = false.
Proof.
  intros Hrepo Hiv.
  induction ps as [|r ps IH]; intros fuel s0 ls jr st Hmem Hans Hnt Hclock.
  - split; [reflexivity|exact Hmem].
  - cbn [length Nat.add followed map]. rewrite !last_cons.
    rewrite (watch_loop_continue _ _ repo _ _ _ _ _ _ _ w st r Hrepo Hiv Hmem
               (Hans 0%nat r eq_refl) (Hclock 0%nat ltac:(simpl; lia))).
    rewrite seen_eq.
    destruct (polled_counters self repo w job r ls st) as [Hpg Hpt].
    apply IH.
    + apply Hnt. left. reflexivity.
    + intros i r' Hi. change (get_calls (record _ ?s)) with (get_calls s).
      rewrite Hpg, Nat.add_succ_r. apply (Hans (S i) r' Hi).
    + intros r' Hr'. apply Hnt. right. exact Hr'.
    + intros i Hi. change (time_calls (record _ ?s)) with (time_calls s).
      rewrite Hpt, Nat.add_succ_r. apply (Hclock (S i)). simpl. lia.
Qed.

Lemma watch_after_prefix self repo job current until timeout w st ps fuel :
  nth_error (PyStr.split "/" (image self)) 2 = Some repo ->
  (0 <= job_watch_poll_interval self)%Z ->
  JobStateOps.mem JOB_STATE_UNSPECIFIED until = false ->
  (forall i r, nth_error ps i = Some r ->
     get_custom_job w (i + get_calls st) job = inr r) ->
  (forall r, In r ps -> JobStateOps.mem (state r) until = false) ->
  (forall i, (i < length ps)%nat ->
     timed_out timeout (time_time w (S i + time_calls st)
                        - time_time w (time_calls st)) = false) ->
  let st1 := followed self repo w job ps current (advance 0 1 0 st) in
  _watch_job_run (length ps + fuel) self job current until timeout w st =
    watch_loop fuel self job until timeout (time_time w (time_calls st))
      (last (map state ps) JOB_STATE_UNSPECIFIED) (last (map state ps) current)
      (last (map Some ps) None) w st1
  /\ JobStateOps.mem (last (map state ps) JOB_STATE_UNSPECIFIED) until = false
  /\ get_calls st1 = (length ps + get_calls st)%nat
  /\ time_calls st1 = (S (length ps) + time_calls st)%nat.
Proof.
  intros Hrepo Hiv Hunspec Hans Hnt Hclock st1.
  unfold _watch_job_run. rewrite (bind_Ret _ _ _ _ _ _ (time_eq w st)).
  destruct (watch_loop_follows self repo job until timeout
              (time_time w (time_calls st)) w Hrepo Hiv ps fuel
              JOB_STATE_UNSPECIFIED current None (advance 0 1 0 st) Hunspec)
    as [Heq Hmem].
  - exact Hans.
  - exact Hnt.
  - intros i Hi. change (time_calls (advance 0 1 0 st)) with (S (time_calls st)).
    rewrite Nat.add_succ_r. apply Hclock. exact Hi.
  - split; [exact Heq|]. split; [exact Hmem|].
    destruct (followed_counters self repo w job ps current (advance 0 1 0 st))
      as [Hg [Ht _]].
    fold st1 in Hg, Ht. rewrite Hg, Ht. split; [reflexivity|].
    change (time_calls (advance 0 1 0 st)) with (S (time_calls st)). lia.
Qed.

Lemma watch_script_returns self repo job current until timeout w st ps p fuel :
  nth_error (PyStr.split "/" (image self)) 2 = Some repo ->
  (0 <= job_watch_poll_interval self)%Z ->
  JobStateOps.mem JOB_STATE_UNSPECIFIED until = false ->
  (forall i r, nth_error (ps ++ [p]) i = Some r ->
     get_custom_job w (i + get_calls st) job = inr r) ->
  (forall r, In r ps -> JobStateOps.mem (state r) until = false) ->
  JobStateOps.mem (state p) until = true ->
  (forall i, (i <= length ps)%nat ->
     timed_out timeout (time_time w (S i + time_calls st)
                        - time_time w (time_calls st)) = false) ->
  _watch_job_run (S (length ps) + fuel) self job current until timeout w st =
    (Ret p, followed self repo w job (ps ++ [p]) current (advance 0 1 0 st)).
Proof.
  intros Hrepo Hiv Hunspec Hans Hnt Hterminal Hclock.
  destruct (watch_after_prefix self repo job current until timeout w st ps (S fuel)
              Hrepo Hiv Hunspec) as [Heq [Hmem [Hg Ht]]].
  { intros i r Hi. apply Hans. rewrite nth_error_app1; [exact Hi|].
    apply nth_error_Some. congruence. }
  { exact Hnt. }
  { intros i Hi. apply Hclock. lia. }
  replace (S (length ps) + fuel)%nat with (length ps + S fuel)%nat by lia.
  rewrite Heq.
  rewrite (watch_loop_continue _ _ repo _ _ _ _ _ _ _ w _ p Hrepo Hiv Hmem).
  - rewrite watch_loop_done by exact Hterminal.
    rewrite followed_app. reflexivity.
  - rewrite Hg. apply Hans. rewrite nth_error_app2 by lia.
    rewrite Nat.sub_diag. reflexivity.
  - rewrite Ht. apply Hclock. lia.
Qed.

Lemma followed_script_counts self repo w job ps p current st :
  exists evs,
    trace (followed self repo w job (ps ++ [p]) current st) = (trace st ++ evs)%list
    /\ get_calls (followed self repo w job (ps ++ [p]) current st) =
         (S (length ps) + get_calls st)%nat
    /\ forallb is_watch_event evs = true
    /\ count_events is_poll evs = S (length ps)
    /\ count_events is_sleep evs = S (length ps)
    /\ count_events (is_log INFO) evs = transitions current (map state (ps ++ [p]))
    /\ (count_events (is_log INFO) evs + count_events (is_log DEBUG) evs)%nat
       = S (length ps).
Proof.
  destruct (followed_trace self repo w job (ps ++ [p]) current st)
    as [evs [Htrace [Hall [Hpoll [Hsleep [Hinfo Hlogs]]]]]].
  destruct (followed_counters self repo w job (ps ++ [p]) current st) as [Hg _].
  rewrite length_app in Hpoll, Hsleep, Hlogs, Hg. simpl in Hpoll, Hsleep, Hlogs, Hg.
  exists evs. split; [exact Htrace|]. split; [lia|]. split; [exact Hall|].
  repeat split; try assumption; lia.
Qed.


(** X12. The deadline comes before the end of the job: when a poll is
    answered after the limit is exceeded, the watch raises the time-out error
    whatever the poll shows, even a snapshot in an awaited state such as
    SUCCEEDED; that snapshot is not returned. *)
Theorem watch_times_out_on_a_late_answer
    self repo job current until limit w st ps p fuel :
  nth_error (PyStr.split "/" (image self)) 2 = Some repo ->
  (0 <= job_watch_poll_interval self)%Z ->
  JobStateOps.mem JOB_STATE_UNSPECIFIED until = false ->
  (forall i r, nth_error (ps ++ [p]) i = Some r ->
     get_custom_job w (i + get_calls st) job = inr r) ->
  (forall r, In r ps -> JobStateOps.mem (state r) until = false) ->
  (forall i, (i < length ps)%nat ->
     (time_time w (S i + time_calls st) - time_time w (time_calls st) <= limit)%Z) ->
  (limit < time_time w (S (length ps) + time_calls st)
           - time_time w (time_calls st))%Z ->
  exists st',
    _watch_job_run (S (length ps) + fuel) self job current until (Some limit) w st =
      (Raise (timeout_error (time_time w (S (length ps) + time_calls st)
                             - time_time w (time_calls st))), st')
    /\ get_calls st' = (S (length ps) + get_calls st)%nat.
Proof.
  intros Hrepo Hiv Hunspec Hans Hnt Hclock Hlate.
  destruct (watch_after_prefix self repo job current until (Some limit) w st ps
              (S fuel) Hrepo Hiv Hunspec) as [Heq [Hmem [Hg Ht]]].
  { intros i r Hi. apply Hans. rewrite nth_error_app1; [exact Hi|].
    apply nth_error_Some. congruence. }
  { exact Hnt. }
  { intros i Hi. apply timed_out_false. apply Hclock. exact Hi. }
  replace (S (length ps) + fuel)%nat with (length ps + S fuel)%nat by lia.
  rewrite Heq.
  rewrite (watch_loop_iteration _ _ repo _ _ _ _ _ _ _ w _ p Hrepo Hmem).
  - cbv zeta. rewrite Ht. unfold timed_out.
    apply Z.ltb_lt in Hlate. rewrite Hlate.
    eexists. split; [reflexivity|].
    rewrite (proj1 (polled_counters _ _ _ _ _ _ _)), Hg. reflexivity.
  - rewrite Hg. apply Hans. rewrite nth_error_app2 by lia.
    rewrite Nat.sub_diag. reflexivity.
Qed.

(** X13. An exception of a poll is not caught: when, after any number of
    answered polls that neither end the watch nor exceed the limit, the get
    call raises, the watch raises that very exception at once, without
    sleeping or polling again. *)
Theorem watch_propagates_a_poll_exception
    self repo job current until timeout w st ps e fuel :
  nth_error (PyStr.split "/" (image self)) 2 = Some repo ->
  (0 <= job_watch_poll_interval self)%Z ->
  JobStateOps.mem JOB_STATE_UNSPECIFIED until = false ->
  (forall i r, nth_error ps i = Some r ->
     get_custom_job w (i + get_calls st) job = inr r) ->
  (forall r, In r ps -> JobStateOps.mem (state r) until = false) ->
  (forall i, (i < length ps)%nat ->
     timed_out timeout (time_time w (S i + time_calls st)
                        - time_time w (time_calls st)) = false) ->
  get_custom_job w (length ps + get_calls st) job = inl e ->
  _watch_job_run (S (length ps) + fuel) self job current until timeout w st =
    (Raise e,
     advance 0 0 1
       (record [GetCustomJob job]
               (followed self repo w job ps current (advance 0 1 0 st)))).
Proof.
  intros Hrepo Hiv Hunspec Hans Hnt Hclock Hraise.
  destruct (watch_after_prefix self repo job current until timeout w st ps
              (S fuel) Hrepo Hiv Hunspec Hans Hnt Hclock) as [Heq [Hmem [Hg Ht]]].
  replace (S (length ps) + fuel)%nat with (length ps + S fuel)%nat by lia.
  rewrite Heq. apply watch_loop_poll_raises; [exact Hmem|].
  rewrite Hg. exact Hraise.
Qed.

(** X14. Awaiting the state UNSPECIFIED: the loop is not entered, and the
    watch raises [UnboundLocalError] on its [return], having read the clock
    once and polled nothing. *)
Theorem watch_for_unspecified_is_unbound fuel self job current until timeout w st :
  JobStateOps.mem JOB_STATE_UNSPECIFIED until = true ->
  exists msg,
    _watch_job_run fuel self job current until timeout w st =
      (Raise (UnboundLocalError msg), advance 0 1 0 st).
Proof.
  intros Hmem. eexists. unfold _watch_job_run.
  rewrite (bind_Ret _ _ _ _ _ _ (time_eq w st)).
  destruct fuel; simpl; rewrite Hmem; reflexivity.
Qed.


(** *** [run] along a script, [kill], and the labels of the states *)

(** X16. [run] end to end. For a valid block, a client that accepts the
    submission, then answers the polls along a script that ends on a snapshot
    [p] in a terminal state without error message, within the maximum run
    time: [run] returns the display name reported in [p], with status code 0
    when [p] is SUCCEEDED and 1 otherwise, after one submission and exactly as
    many polls as the script has answers, and the client is closed. *)
Theorem run_follows_script self spec repo cmd task_status w st created ps p fuel :
  _build_job_spec self = Ret spec ->
  nth_error (PyStr.split "/" (image self)) 2 = Some repo ->
  command self = Some cmd ->
  (0 <= job_watch_poll_interval self)%Z ->
  get_job_service_client w (api_endpoint self) = None ->
  create_custom_job w (parent_resource self)
                    (new_CustomJob (nth_name repo w st 0) spec) = inr created ->
  (forall i r, nth_error (ps ++ [p]) i = Some r ->
     get_custom_job w (i + get_calls st) (cj_name created) = inr r) ->
  (forall r, In r ps -> ~ In (state r) terminal_states) ->
  In (state p) terminal_states ->
  error_message p = EmptyString ->
  (forall i, (i <= length ps)%nat ->
     (time_time w (S i + time_calls st) - time_time w (time_calls st)
      <= maximum_run_time self)%Z) ->
  exists st' evs,
    run (S (length ps) + fuel) self task_status w st =
      (Ret {| identifier := display_name p;
              status_code :=
                if JobStateOps.eqb (state p) JOB_STATE_SUCCEEDED then 0 else 1 |},
       st')
    /\ trace st' =
         (trace st ++ [ClientOpened (api_endpoint self)] ++ evs ++ [ClientClosed])%list
    /\ count_events is_submission evs = 1%nat
    /\ count_events is_poll evs = S (length ps)
    /\ count_events is_sleep evs = S (length ps)
    /\ count_events is_started evs = (names_used task_status - 3)%nat.
Proof.
  intros Hspec Hrepo Hcmd Hiv Hopen Hcreate Hans Hnt Hterminal Herr Hclock.
  pose (st0 := record [ClientOpened (api_endpoint self)] st).
  pose (st1 := record (submission_events self spec repo (PyStr.join " " cmd) w st0
                                         created
                       ++ started_events task_status repo w st0)
                      (advance (names_used task_status) 0 0 st0)).
  assert (Hwatch :
    submit_and_watch (S (length ps) + fuel) self spec task_status w st0 =
      (Ret p, followed self repo w (cj_name created) (ps ++ [p]) (state created)
                (advance 0 1 0 st1))).
  { rewrite (submit_and_watch_ok _ _ _ _ _ _ w st0 _ Hrepo Hcmd Hcreate).
    apply (watch_script_returns self repo (cj_name created) (state created)
             terminal_states (Some (maximum_run_time self)) w st1 ps p fuel
             Hrepo Hiv eq_refl).
    - exact Hans.
    - intros r Hr. destruct (JobStateOps.mem (state r) terminal_states) eqn:E;
        [|reflexivity].
      apply state_mem_In in E. exfalso. exact (Hnt r Hr E).
    - apply state_mem_In. exact Hterminal.
    - intros i Hi. apply timed_out_false. apply Hclock. exact Hi. }
  destruct (followed_script_counts self repo w (cj_name created) ps p
              (state created) (advance 0 1 0 st1))
    as [watched [Htrace [_ [Hall [Hpoll [Hsleep _]]]]]].
  eexists.
  exists (submission_events self spec repo (PyStr.join " " cmd) w st0 created
          ++ started_events task_status repo w st0 ++ watched)%list.
  split; [|split].
  - rewrite (run_eq _ _ _ _ _ _ _ _ Hspec (with_client_eq _ _ w st _ _ Hopen Hwatch)).
    rewrite interpret_final_eq, Herr. reflexivity.
  - unfold leaving. unfold record at 1. cbn [trace]. rewrite Htrace.
    unfold st1, st0, record, advance. cbn [trace]. rewrite <- !app_assoc.
    reflexivity.
  - rewrite !count_events_app.
    rewrite (count_events_watch is_submission watched),
      (count_events_watch is_started watched) by
      (first [exact Hall | intros [] He; try reflexivity; discriminate He]).
    rewrite Hpoll, Hsleep.
    destruct task_status; unfold count_events; simpl; repeat split; lia.
Qed.

(** X17. [kill] is one cancel request and nothing more. When no client can
    be obtained it raises what the credentials raise and requests nothing.
    Otherwise, whatever the answer, the only remote call is one cancel request
    for the given job, there is no poll and no sleep, the client is closed,
    and the outcome does not depend on [grace_seconds]. *)
Theorem kill_is_one_cancel_request self job grace w st :
  (forall e,
      get_job_service_client w (api_endpoint self) = Some e ->
      kill self job grace w st = (Raise e, st))
  /\ (get_job_service_client w (api_endpoint self) = None ->
      exists evs,
        trace (snd (kill self job grace w st)) =
          (trace st ++ [ClientOpened (api_endpoint self)] ++ evs ++ [ClientClosed])%list
        /\ filter is_remote_call evs = [CancelCustomJob job]
        /\ count_events is_poll evs = 0%nat
        /\ count_events is_sleep evs = 0%nat
        /\ count_events is_client_event evs = 0%nat)
  /\ (forall grace', kill self job grace' w st = kill self job grace w st).
Proof.
  split; [|split].
  - intros e Hopen. unfold kill. apply with_client_refused. exact Hopen.
  - intros Hopen. unfold kill. rewrite (proj1 (with_client_state _ _ _ _ Hopen)).
    assert (Hcancel : forall st0,
      client_cancel_custom_job job w st0 =
        (match cancel_custom_job w job with
         | Some e => Raise e
         | None => Ret tt
         end, record [CancelCustomJob job] st0)).
    { intros st0. unfold client_cancel_custom_job.
      rewrite (bind_Ret _ _ _ _ _ _ (emit_eq _ w st0)).
      destruct (cancel_custom_job w job); reflexivity. }
    unfold bind, _kill_job, try_except. rewrite Hcancel.
    destruct (cancel_custom_job w job) as [exc|].
    + exists [CancelCustomJob job].
      destruct (PyStr.contains "does not exist" (exn_str exc));
        (split; [unfold raise, record; simpl; rewrite <- ?app_assoc; reflexivity
                |repeat split]).
    + exists [CancelCustomJob job;
              Log INFO ("Requested to cancel " ++ job ++ "...")].
      split; [unfold logger_info, emit, record; simpl; rewrite <- ?app_assoc;
              reflexivity
             |repeat split].
  - intros grace'. reflexivity.
Qed.

(** X18. The label of every state in the transition record: the words
    "job state is now: " followed by the name of the state without its
    JOB_STATE_ prefix, in lower case and with spaces for underscores. *)
Theorem state_label_reads self shown s :
  exists words,
    state_label s = "job state is now: " ++ words
    /\ PyStr.lower (PyStr.replace "_" " " (JobStateOps.name s)) = "job state " ++ words
    /\ count_char "_" words = 0%nat
    /\ transition_message self shown s =
         _log_prefix self ++ ": " ++ shown ++ " has new job state is now: " ++ words.
Proof.
  unfold transition_message.
  destruct s; eexists; (split; [vm_compute; reflexivity|]);
    (split; [vm_compute; reflexivity|]); (split; [vm_compute; reflexivity|]);
    f_equal.
Qed.

Lemma forallb_weaken {A} (p q : A -> bool) (l : list A) :
  (forall a, p a = true -> q a = true) ->
  forallb p l = true -> forallb q l = true.
Proof.
  intros Hpq. induction l as [|a l IH]; simpl; [reflexivity|].
  intros Hall. apply andb_true_iff in Hall. destruct Hall as [Ha Hall].
  rewrite (Hpq a Ha). apply IH. exact Hall.
Qed.

Lemma submit_and_watch_run_events fuel self spec task_status w st :
  exists evs,
    trace (snd (submit_and_watch fuel self spec task_status w st)) =
      (trace st ++ evs)%list
    /\ forallb is_run_event evs = true.
Proof.
  destruct (nth_error (PyStr.split "/" (image self)) 2) as [repo|] eqn:Hrepo.
  - destruct (command self) as [cmd|] eqn:Hcmd.
    + destruct (create_custom_job w (parent_resource self)
                  (new_CustomJob (nth_name repo w st 0) spec)) as [e|created]
        eqn:Hcreate.
      * unfold submit_and_watch.
        rewrite (bind_Raise _ _ _ _ _ _
                   (create_and_begin_refused_eq _ _ _ _ w st _ Hrepo Hcmd Hcreate)).
        eexists. split; reflexivity.
      * rewrite (submit_and_watch_ok _ _ _ _ _ _ w st _ Hrepo Hcmd Hcreate).
        match goal with
        | |- context [_watch_job_run ?f ?s ?j ?c ?u ?t w ?s0] =>
            destruct (watch_trace f s repo j c u t w s0 Hrepo)
              as [watched [Htrace Hall]]
        end.
        eexists. split.
        { rewrite Htrace. unfold record. cbn [trace advance].
          rewrite <- app_assoc. reflexivity. }
        rewrite !forallb_app. apply andb_true_iff. split.
        { destruct task_status; reflexivity. }
        apply (forallb_weaken is_watch_event); [|exact Hall].
        intros [] He; try reflexivity; discriminate He.
    + unfold submit_and_watch.
      rewrite (bind_Raise _ _ _ _ _ _
                 (create_and_begin_no_command _ spec _ w st Hrepo Hcmd)).
      exists []. rewrite app_nil_r. split; reflexivity.
  - unfold submit_and_watch, _create_and_begin_job.
    assert (Hname : job_name self w st =
              (Raise (ValueError
                 ("The provided image must be from either Google Container Registry "
                  ++ "or Google Artifact Registry")), st)).
    { unfold job_name. rewrite Hrepo. reflexivity. }
    rewrite (bind_Raise _ _ _ _ _ _ (bind_Raise _ _ _ _ _ _ Hname)).
    exists []. rewrite app_nil_r. split; reflexivity.
Qed.

(** X19. [run] never cancels the job. On every way out, the time-out of the
    watch included, no cancel request is among the remote calls that [run]
    makes: the job is left to the remote service. *)
Theorem run_never_cancels fuel self task_status w st :
  exists calls,
    remote_calls (snd (run fuel self task_status w st)) =
      (remote_calls st ++ calls)%list
    /\ count_events is_cancel calls = 0%nat.
Proof.
  assert (Hevs : exists evs,
    trace (snd (run fuel self task_status w st)) = (trace st ++ evs)%list
    /\ forallb (fun e => negb (is_cancel e)) evs = true).
  { destruct (_build_job_spec self) as [spec|e|] eqn:Hspec.
    - rewrite (run_state _ _ _ _ _ _ Hspec).
      destruct (get_job_service_client w (api_endpoint self)) as [e|] eqn:Hopen.
      + rewrite (with_client_refused _ _ _ _ _ Hopen).
        exists []. rewrite app_nil_r. split; reflexivity.
      + rewrite (proj1 (with_client_state _ _ _ _ Hopen)), trace_leaving.
        destruct (submit_and_watch_run_events fuel self spec task_status w
                    (record [ClientOpened (api_endpoint self)] st))
          as [evs [Htrace Hall]].
        exists ([ClientOpened (api_endpoint self)] ++ evs
                ++ closing (fst (submit_and_watch fuel self spec task_status w
                                   (record [ClientOpened (api_endpoint self)] st))))%list.
        split.
        * rewrite Htrace. unfold record. cbn [trace].
          rewrite <- !app_assoc. reflexivity.
        * rewrite !forallb_app. apply andb_true_iff. split; [reflexivity|].
          apply andb_true_iff. split.
          -- apply (forallb_weaken is_run_event); [|exact Hall].
             intros [] He; try reflexivity; discriminate He.
          -- destruct (fst (submit_and_watch _ _ _ _ _ _)); reflexivity.
    - unfold run, lift. rewrite Hspec. exists []. rewrite app_nil_r.
      split; reflexivity.
    - unfold run, lift. rewrite Hspec. exists []. rewrite app_nil_r.
      split; reflexivity. }
  destruct Hevs as [evs [Htrace Hall]].
  exists (filter is_remote_call evs). split.
  - unfold remote_calls. rewrite Htrace. apply filter_app.
  - unfold count_events. clear Htrace.
    induction evs as [|e evs IH]; simpl; [reflexivity|].
    simpl in Hall. apply andb_true_iff in Hall. destruct Hall as [He Hall].
    destruct (is_remote_call e); simpl; [|exact (IH Hall)].
    destruct (is_cancel e); [discriminate He|exact (IH Hall)].
Qed.

(** *** The watch loop against a job that never finishes *)











End Further.

(** ** The further properties on concrete inputs *)

(** Names for the sample images: two segments, three segments, and more. *)
Lemma job_name_needs_two_slashes_witness :
  (exists m,
     job_name Sample.bad_image Sample.never_terminal initial_state =
       (Raise (ValueError m), initial_state))
  /\ (exists repo,
        count_char "/" repo = 0%nat
        /\ job_name Sample.good Sample.never_terminal initial_state =
             (Ret (repo ++ "-00"), advance 1 0 0 initial_state)).
Proof.
  split.
  - apply (proj1 (job_name_needs_two_slashes Sample.bad_image Sample.never_terminal
                    initial_state)).
    vm_compute. lia.
  - apply (proj2 (job_name_needs_two_slashes Sample.good Sample.never_terminal
                    initial_state)).
    vm_compute. lia.
Defined.

(** The image of the module's own example: the tag stays out of the name
    because it sits in a fourth segment. *)
Lemma job_name_takes_third_segment_witness :
  job_name Sample.good Sample.never_terminal initial_state =
    (Ret "container-00", advance 1 0 0 initial_state)
  /\ job_name (MoreSamples.with_account None None) Sample.never_terminal
              initial_state =
       (Ret "trainer-00", advance 1 0 0 initial_state).
Proof.
  split.
  - apply (job_name_takes_third_segment Sample.good "us-docker.pkg.dev" "cloudrun"
             "container" "job:latest" Sample.never_terminal initial_state
             eq_refl eq_refl eq_refl).
    right. reflexivity.
  - apply (job_name_takes_third_segment (MoreSamples.with_account None None)
             "gcr.io" "proj" "trainer" EmptyString Sample.never_terminal
             initial_state eq_refl eq_refl eq_refl).
    left. reflexivity.
Defined.

Lemma job_name_is_drawn_anew_witness :
  job_name_twice Sample.good Sample.never_terminal initial_state =
    (Ret ("container-00", "container-01"), advance 2 0 0 initial_state)
  /\ "container-00" <> "container-01".
Proof.
  destruct (job_name_is_drawn_anew Sample.good "container" Sample.never_terminal
              initial_state eq_refl) as [Hrun Hsame].
  split; [exact Hrun|].
  intros E. apply Hsame in E. vm_compute in E. discriminate E.
Defined.

(** An explicit account, an empty one, and none at all. *)
Lemma build_job_spec_service_account_witness :
  (exists spec,
     @_build_job_spec Sample.externals
       (MoreSamples.with_account (Some "explicit@proj") (Some "inferred@proj")) =
       Ret spec
     /\ js_service_account spec = "explicit@proj")
  /\ (exists spec,
        @_build_job_spec Sample.externals
          (MoreSamples.with_account (Some EmptyString) (Some "inferred@proj")) =
          Ret spec
        /\ js_service_account spec = "inferred@proj")
  /\ (exists m,
        @_build_job_spec Sample.externals (MoreSamples.with_account None None) =
          Raise (ValueError m)).
Proof.
  split; [|split].
  - apply (proj1 (@build_job_spec_service_account Sample.externals
                    (MoreSamples.with_account (Some "explicit@proj")
                                              (Some "inferred@proj")))
             "explicit@proj" eq_refl).
    discriminate.
  - apply (proj1 (proj2 (@build_job_spec_service_account Sample.externals
                           (MoreSamples.with_account (Some EmptyString)
                                                     (Some "inferred@proj"))))
             "inferred@proj"); [right; reflexivity|reflexivity].
  - apply (proj2 (proj2 (@build_job_spec_service_account Sample.externals
                           (MoreSamples.with_account None None))));
      [left; reflexivity|reflexivity].
Defined.

Lemma no_service_account_fails_first_witness :
  exists m,
    @run Sample.externals 5 (MoreSamples.with_account None None)
         (Some AnyioTaskStatus) Sample.never_terminal initial_state =
      (Raise (ValueError m), initial_state)
    /\ @preview Sample.externals (MoreSamples.with_account None None)
         Sample.never_terminal initial_state = (Raise (ValueError m), initial_state).
Proof.
  eexists.
  apply (@no_service_account_fails_first Sample.externals
           (MoreSamples.with_account None None) _ eq_refl).
Defined.

(** [KEY] is overridden in place; [MODE] and [SEED] follow the base names. *)
Lemma build_job_spec_env_order_witness :
  exists spec pool,
    @_build_job_spec Sample.externals
      (MoreSamples.with_account (Some "explicit@proj") None) = Ret spec
    /\ worker_pool_specs spec = [pool]
    /\ map ev_name (cs_env (container_spec pool)) =
         ["KEY"; "PREFECT_API_URL"; "MODE"; "SEED"].
Proof.
  assert (Henv : PyDict.wf (env (MoreSamples.with_account (Some "explicit@proj") None))).
  { repeat constructor; simpl; intuition discriminate. }
  edestruct (@build_job_spec_env_order Sample.externals
               (MoreSamples.with_account (Some "explicit@proj") None) _ Henv eq_refl)
    as [pool [Hpool Hnames]].
  eexists. exists pool. split; [reflexivity|]. split; [exact Hpool|].
  rewrite Hnames. reflexivity.
Defined.

(** The client is closed when a poll raises; it is still open while the watch
    goes on. *)
Lemma run_closes_its_client_witness :
  (exists evs,
     count_events is_client_event evs = 0%nat
     /\ trace (snd (@run Sample.externals 5 Sample.good None Sample.unavailable_once
                      initial_state)) =
          ([ClientOpened "us-east1-aiplatform.googleapis.com"] ++ evs
           ++ [ClientClosed])%list)
  /\ (exists evs,
        count_events is_client_event evs = 0%nat
        /\ trace (snd (@run Sample.externals 1 Sample.good None Sample.never_terminal
                         initial_state)) =
             ([ClientOpened "us-east1-aiplatform.googleapis.com"] ++ evs)%list).
Proof.
  eassert (Hspec : @_build_job_spec Sample.externals Sample.good = Ret _)
    by reflexivity.
  match type of Hspec with _ = Ret ?s => set (spec := s) in Hspec end.
  split.
  - destruct (@run_closes_its_client Sample.externals 5 Sample.good spec None
                Sample.unavailable_once initial_state Hspec eq_refl)
      as [evs [Hclient Htrace]].
    exists evs. split; [exact Hclient|].
    rewrite Htrace.
    replace (fst (@run Sample.externals 5 Sample.good None Sample.unavailable_once
                    initial_state))
      with (@Raise VertexAICustomTrainingJobResult
              (ServiceError "503 Service Unavailable"))
      by (vm_compute; reflexivity).
    reflexivity.
  - destruct (@run_closes_its_client Sample.externals 1 Sample.good spec None
                Sample.never_terminal initial_state Hspec eq_refl)
      as [evs [Hclient Htrace]].
    exists evs. split; [exact Hclient|].
    rewrite Htrace.
    replace (fst (@run Sample.externals 1 Sample.good None Sample.never_terminal
                    initial_state))
      with (@OutOfFuel VertexAICustomTrainingJobResult)
      by (vm_compute; reflexivity).
    simpl. rewrite app_nil_r. reflexivity.
Defined.

Lemma refused_submission_goes_through_witness :
  exists msg job,
    @run Sample.externals 5 Sample.good (Some AnyioTaskStatus) MoreSamples.refusing
         initial_state =
      (Raise (ServiceError "429 Quota exceeded"),
       record [ClientOpened "us-east1-aiplatform.googleapis.com";
               Log INFO msg;
               CreateCustomJob "projects/proj/locations/us-east1" job;
               ClientClosed]
              (advance 2 0 0 initial_state))
    /\ display_name job = "container-00".
Proof.
  eassert (Hspec : @_build_job_spec Sample.externals Sample.good = Ret _)
    by reflexivity.
  destruct (@refused_submission_goes_through Sample.externals 5 Sample.good _
              "container" ["echo"; "hello world"] (Some AnyioTaskStatus)
              MoreSamples.refusing initial_state
              (ServiceError "429 Quota exceeded") Hspec eq_refl eq_refl eq_refl
              eq_refl) as [msg Hrun].
  exists msg. eexists. split; [exact Hrun|reflexivity].
Defined.

Lemma run_needs_a_command_witness :
  (exists msg,
     fst (@run Sample.externals 5 MoreSamples.without_command None
            Sample.queued_running_succeeded initial_state) = Raise (TypeError msg))
  /\ remote_calls (snd (@run Sample.externals 5 MoreSamples.without_command None
                          Sample.queued_running_succeeded initial_state)) = []
  /\ fst (@preview Sample.externals MoreSamples.without_command
            Sample.queued_running_succeeded initial_state) =
       Ret "display_name: container-00".
Proof.
  eassert (Hspec : @_build_job_spec Sample.externals MoreSamples.without_command
                   = Ret _) by reflexivity.
  destruct (@run_needs_a_command Sample.externals 5 MoreSamples.without_command _
              "container" None Sample.queued_running_succeeded initial_state
              Hspec eq_refl eq_refl eq_refl) as [[msg Hrun] [Hcalls Hpreview]].
  split; [exists msg; rewrite Hrun; reflexivity|].
  split; [exact Hcalls|]. rewrite Hpreview. reflexivity.
Defined.


(** The same job, its last answer coming eleven seconds after the start of a
    ten-second watch: SUCCEEDED is seen, and the watch times out. *)
Lemma watch_times_out_on_a_late_answer_witness :
  get_custom_job (MoreSamples.slow_finish 9000000) 2 Sample.full_name =
    Sample.ok JOB_STATE_SUCCEEDED
  /\ fst (@_watch_job_run Sample.externals 5 Sample.good Sample.full_name
            JOB_STATE_QUEUED terminal_states (Some (maximum_run_time Sample.good))
            (MoreSamples.slow_finish 9000000) initial_state) =
       Raise (@timeout_error Sample.externals 11000000).
Proof.
  split; [reflexivity|].
  destruct (@watch_times_out_on_a_late_answer Sample.externals Sample.good
              "container" Sample.full_name JOB_STATE_QUEUED terminal_states
              (maximum_run_time Sample.good)
              (MoreSamples.slow_finish 9000000) initial_state
              [Sample.snapshot JOB_STATE_RUNNING EmptyString;
               Sample.snapshot JOB_STATE_RUNNING EmptyString]
              (Sample.snapshot JOB_STATE_SUCCEEDED EmptyString) 2
              eq_refl ltac:(simpl; lia) eq_refl)
    as [st' [Hrun _]].
  - intros i r Hi.
    destruct i as [|[|[|i]]]; simpl in Hi;
      try (injection Hi as <-; reflexivity).
    destruct i; discriminate Hi.
  - intros r [<-|[<-|[]]]; reflexivity.
  - intros i Hi. destruct i as [|[|i]]; [simpl; lia|simpl; lia|].
    simpl in Hi. lia.
  - simpl. lia.
  - exact (f_equal fst Hrun).
Defined.

(** One answered poll, then a 503. *)
Lemma watch_propagates_a_poll_exception_witness :
  exists st',
    @_watch_job_run Sample.externals 5 Sample.good Sample.full_name
      JOB_STATE_QUEUED terminal_states (Some (maximum_run_time Sample.good))
      Sample.unavailable_once initial_state =
      (Raise (ServiceError "503 Service Unavailable"), st')
    /\ get_calls st' = 2%nat
    /\ count_events is_sleep (trace st') = 1%nat.
Proof.
  eexists. split.
  - apply (@watch_propagates_a_poll_exception Sample.externals Sample.good
             "container" Sample.full_name JOB_STATE_QUEUED terminal_states
             (Some (maximum_run_time Sample.good)) Sample.unavailable_once
             initial_state [Sample.snapshot JOB_STATE_RUNNING EmptyString]
             (ServiceError "503 Service Unavailable") 3
             eq_refl ltac:(simpl; lia) eq_refl).
    + intros i r Hi. destruct i as [|i]; simpl in Hi;
        [injection Hi as <-; reflexivity|destruct i; discriminate Hi].
    + intros r [<-|[]]; reflexivity.
    + intros i Hi. destruct i as [|i]; [reflexivity|simpl in Hi; lia].
    + reflexivity.
  - split; reflexivity.
Defined.

Lemma watch_for_unspecified_is_unbound_witness :
  exists msg,
    @_watch_job_run Sample.externals 5 Sample.good Sample.full_name
      JOB_STATE_QUEUED [JOB_STATE_UNSPECIFIED; JOB_STATE_SUCCEEDED] None
      Sample.queued_running_succeeded initial_state =
      (Raise (UnboundLocalError msg), advance 0 1 0 initial_state).
Proof.
  apply (@watch_for_unspecified_is_unbound Sample.externals 5 Sample.good
           Sample.full_name JOB_STATE_QUEUED
           [JOB_STATE_UNSPECIFIED; JOB_STATE_SUCCEEDED] None
           Sample.queued_running_succeeded initial_state eq_refl).
Defined.


(** The run of the slow job that ends in time: one submission, three polls. *)
Lemma run_follows_script_witness :
  exists st' evs,
    @run Sample.externals 5 Sample.good (Some AnyioTaskStatus)
         (MoreSamples.slow_finish 500000) initial_state =
      (Ret {| identifier := "container-00"; status_code := 0 |}, st')
    /\ trace st' =
         ([ClientOpened "us-east1-aiplatform.googleapis.com"] ++ evs
          ++ [ClientClosed])%list
    /\ count_events is_submission evs = 1%nat
    /\ count_events is_poll evs = 3%nat
    /\ count_events is_started evs = 1%nat.
Proof.
  eassert (Hspec : @_build_job_spec Sample.externals Sample.good = Ret _)
    by reflexivity.
  destruct (@run_follows_script Sample.externals Sample.good _ "container"
              ["echo"; "hello world"] (Some AnyioTaskStatus)
              (MoreSamples.slow_finish 500000) initial_state
              (Sample.snapshot JOB_STATE_QUEUED EmptyString)
              [Sample.snapshot JOB_STATE_RUNNING EmptyString;
               Sample.snapshot JOB_STATE_RUNNING EmptyString]
              (Sample.snapshot JOB_STATE_SUCCEEDED EmptyString) 2
              Hspec eq_refl eq_refl ltac:(simpl; lia) eq_refl eq_refl)
    as [st' [evs [Hrun [Htrace [Hsub [Hpoll [_ Hstarted]]]]]]].
  - intros i r Hi.
    destruct i as [|[|[|i]]]; simpl in Hi;
      try (injection Hi as <-; reflexivity).
    destruct i; discriminate Hi.
  - intros r [<-|[<-|[]]]; simpl; intuition discriminate.
  - simpl. tauto.
  - reflexivity.
  - intros i Hi. destruct i as [|[|[|i]]]; [simpl; lia|simpl; lia|simpl; lia|].
    simpl in Hi. lia.
  - exists st', evs. split; [exact Hrun|]. split; [exact Htrace|].
    split; [exact Hsub|]. split; [exact Hpoll|exact Hstarted].
Defined.

(** [kill] without client, and with a client whose service is unavailable. *)
Lemma kill_is_one_cancel_request_witness :
  @kill Sample.externals Sample.good Sample.full_name 30 MoreSamples.no_client
        initial_state = (Raise (ServiceError "no credentials"), initial_state)
  /\ remote_calls
       (snd (@kill Sample.externals Sample.good Sample.full_name 30
               (Sample.cancel_answers (Some (ServiceError "503 Service Unavailable")))
               initial_state)) = [CancelCustomJob Sample.full_name].
Proof.
  split.
  - apply (proj1 (@kill_is_one_cancel_request Sample.externals Sample.good
                    Sample.full_name 30 MoreSamples.no_client initial_state)).
    reflexivity.
  - destruct (proj1 (proj2 (@kill_is_one_cancel_request Sample.externals
                              Sample.good Sample.full_name 30
                              (Sample.cancel_answers
                                 (Some (ServiceError "503 Service Unavailable")))
                              initial_state)) eq_refl)
      as [evs [Htrace [Hcalls _]]].
    unfold remote_calls. rewrite Htrace.
    rewrite !filter_app, Hcalls. reflexivity.
Defined.


